(** * Alarm correlation cache, lifecycle synchroniser and normaliser

    A shallow embedding of [alarm_cache.py], [alarm_lifecycle.py] and
    [alarm_normalizer.py].

    Python values are the JSON documents the service exchanges: [None],
    booleans, integers, strings, lists and objects with string keys.
    Non-integer numbers are not part of the value universe.  A string is
    ASCII text as it stands; a character beyond ASCII is carried as bytes
    above 127, and the one place where the code looks at what such a
    character is, [isdigit] followed by [int], is answered by the Unicode
    database.  Alarm dicts and the lists handed out by the cache readers
    are objects with identity: they live in a heap and are passed by
    reference, because the cache stores and returns the caller's own dict
    objects.  Everything nested inside an alarm dict is carried by value,
    and so are the two mappings of the cache, which no method hands out.

    Code that can raise returns a [result]; code that also mutates state is
    written in a state-and-exception monad in which the state survives a
    raised exception, as it does in Python. *)

From Stdlib Require Import ZArith String Ascii List Bool Lia.
From stdpp Require Import base tactics option list strings.

Local Open Scope string_scope.
Local Open Scope list_scope.
Local Open Scope Z_scope.

(* ===================================================================== *)
(** ** Python values *)
(* ===================================================================== *)

#[warnings="-register-all"]
Inductive pyval : Type :=
| VNone
| VBool (b : bool)
| VInt (z : Z)
| VStr (s : string)
| VList (items : list pyval)
| VDict (fields : list (string * pyval)).

(** Structural equality of values, used where the program compares JSON
    documents as data (the store's key column). *)
Fixpoint pyval_eqb (a b : pyval) {struct a} : bool :=
  match a, b with
  | VNone, VNone => true
  | VBool x, VBool y => Bool.eqb x y
  | VInt x, VInt y => Z.eqb x y
  | VStr x, VStr y => String.eqb x y
  | VList xs, VList ys =>
      (fix go (xs ys : list pyval) {struct xs} : bool :=
         match xs, ys with
         | [], [] => true
         | x :: xs', y :: ys' => pyval_eqb x y && go xs' ys'
         | _, _ => false
         end) xs ys
  | VDict xs, VDict ys =>
      (fix go (xs ys : list (string * pyval)) {struct xs} : bool :=
         match xs, ys with
         | [], [] => true
         | (k, x) :: xs', (k', y) :: ys' =>
             String.eqb k k' && pyval_eqb x y && go xs' ys'
         | _, _ => false
         end) xs ys
  | _, _ => false
  end.

(** Exceptions the modelled code can raise. [DbError] stands for any
    [psycopg2.Error]. *)
Inductive exn : Type :=
| KeyError
| TypeError
| AttributeError
| ValueError
| DbError.

Inductive result (A : Type) : Type :=
| Ok (a : A)
| Raise (e : exn).
Arguments Ok {A} a.
Arguments Raise {A} e.

(** *** Dicts

    A Python dict keeps its entries in insertion order and has one entry per
    key: assigning to an existing key keeps its position, a new key goes to
    the end. *)
Section Dict.
Context {K V : Type} (eqb : K -> K -> bool).

Definition pydict : Type := list (K * V).

Fixpoint dict_get (k : K) (d : pydict) : option V :=
  match d with
  | [] => None
  | (k', v) :: d' => if eqb k k' then Some v else dict_get k d'
  end.

Fixpoint dict_set (k : K) (v : V) (d : pydict) : pydict :=
  match d with
  | [] => [(k, v)]
  | (k', v') :: d' =>
      if eqb k k' then (k', v) :: d' else (k', v') :: dict_set k v d'
  end.

(** [d.pop(k, None)], keeping only the dict that is left. *)
Fixpoint dict_pop (k : K) (d : pydict) : pydict :=
  match d with
  | [] => []
  | (k', v') :: d' =>
      if eqb k k' then d' else (k', v') :: dict_pop k d'
  end.

Definition dict_values (d : pydict) : list V := map snd d.
Definition dict_keys (d : pydict) : list K := map fst d.
End Dict.
Arguments pydict K V : clear implicits.

(** An alarm dict, or any JSON object: string keys, values by value. *)
Definition record : Type := pydict string pyval.

(** [d.get(k)]: the value, or [None] when the key is missing. *)
Definition py_get (k : string) (d : record) : pyval :=
  match dict_get String.eqb k d with
  | Some v => v
  | None => VNone
  end.

(** [d.get(k, dflt)]. *)
Definition py_get_default (k : string) (dflt : pyval) (d : record) : pyval :=
  match dict_get String.eqb k d with
  | Some v => v
  | None => dflt
  end.

(** [d[k]]: raises [KeyError] when the key is missing. *)
Definition py_getitem (k : string) (d : record) : result pyval :=
  match dict_get String.eqb k d with
  | Some v => Ok v
  | None => Raise KeyError
  end.

(** Truth value of an object, as [if x], [not x] and [x or y] test it. *)
Definition truthy (v : pyval) : bool :=
  match v with
  | VNone => false
  | VBool b => b
  | VInt z => negb (Z.eqb z 0)
  | VStr s => negb (String.eqb s "")
  | VList l => match l with [] => false | _ => true end
  | VDict d => match d with [] => false | _ => true end
  end.

(** [v == "literal"]: only a string compares equal to a string. *)
Definition py_eq_str (v : pyval) (s : string) : bool :=
  match v with
  | VStr t => String.eqb t s
  | _ => false
  end.

(** Hashable values as dict keys.  [True] and [1] (and [False] and [0]) are
    the same key, so booleans are stored as their integer. *)
Inductive pykey : Type :=
| KNone
| KInt (z : Z)
| KStr (s : string).

Definition pykey_eqb (a b : pykey) : bool :=
  match a, b with
  | KNone, KNone => true
  | KInt x, KInt y => Z.eqb x y
  | KStr x, KStr y => String.eqb x y
  | _, _ => false
  end.

(** Hashing a value: lists and dicts are unhashable ([TypeError]). *)
Definition hash_key (v : pyval) : result pykey :=
  match v with
  | VNone => Ok KNone
  | VBool b => Ok (KInt (Z.b2z b))
  | VInt z => Ok (KInt z)
  | VStr s => Ok (KStr s)
  | VList _ | VDict _ => Raise TypeError
  end.

(* ===================================================================== *)
(** ** State and exceptions *)
(* ===================================================================== *)

(** A computation over a state [S]: it returns a value or raises, and in
    both cases leaves a state behind. *)
Definition M (S A : Type) : Type := S -> result A * S.

Definition ret {S A} (a : A) : M S A := fun s => (Ok a, s).
Definition raise {S A} (e : exn) : M S A := fun s => (Raise e, s).
Definition bind {S A B} (c : M S A) (k : A -> M S B) : M S B :=
  fun s =>
    match c s with
    | (Ok a, s') => k a s'
    | (Raise e, s') => (Raise e, s')
    end.
Definition lift {S A} (r : result A) : M S A := fun s => (r, s).
Definition gets {S A} (f : S -> A) : M S A := fun s => (Ok (f s), s).
Definition modify {S} (f : S -> S) : M S unit := fun s => (Ok tt, f s).

Declare Scope py_scope.
Delimit Scope py_scope with py.
Notation "'let!' x ':=' c 'in' k" := (bind c (fun x => k))
  (at level 10, x name, c at level 100, k at level 200,
   format "'[v' 'let!'  x  ':='  c  'in' '/' k ']'") : py_scope.
Notation "c1 '>>' c2" := (bind c1 (fun _ => c2))
  (at level 90, right associativity) : py_scope.
Local Open Scope py_scope.

(** [try: body except Exception: handler; raise]. *)
Definition try_except_reraise {S A} (body : M S A) (handler : M S unit) : M S A :=
  fun s =>
    match body s with
    | (Ok a, s') => (Ok a, s')
    | (Raise e, s') =>
        match handler s' with
        | (Ok _, s'') => (Raise e, s'')
        | (Raise e', s'') => (Raise e', s'')
        end
    end.

(** [try: body finally: cleanup]. *)
Definition try_finally {S A} (body : M S A) (cleanup : M S unit) : M S A :=
  fun s =>
    let (r, s') := body s in
    match cleanup s' with
    | (Ok _, s'') => (r, s'')
    | (Raise e', s'') => (Raise e', s'')
    end.

(* ===================================================================== *)
(** ** alarm_cache.py *)
(* ===================================================================== *)

(** References to heap objects. *)
Definition loc : Type := nat.

(** The two attributes of an [AlarmCache] instance: alarm_id -> alarm dict,
    where the alarm dict is held by reference.  The [_lock] attribute
    serialises the method bodies; each is modelled as one atomic step. *)
Record AlarmCache : Type := mkAlarmCache {
  active_power_issues : pydict pykey loc;
  active_los_alarms : pydict pykey loc
}.

(** The Python-side state: the alarm dict objects, the list objects handed
    out by the readers, the allocation pointer for new lists, and the
    [AlarmCache] instance created at startup. *)
Record memory : Type := mkMemory {
  dict_at : loc -> record;
  list_at : loc -> list loc;
  next_list : loc;
  alarm_cache : AlarmCache
}.

Definition fun_upd {A} (f : loc -> A) (l : loc) (a : A) : loc -> A :=
  fun l' => if Nat.eqb l' l then a else f l'.

Definition set_cache (c : AlarmCache) (m : memory) : memory :=
  mkMemory (dict_at m) (list_at m) (next_list m) c.

Definition set_power_issues (d : pydict pykey loc) (m : memory) : memory :=
  set_cache (mkAlarmCache d (active_los_alarms (alarm_cache m))) m.

Definition set_los_alarms (d : pydict pykey loc) (m : memory) : memory :=
  set_cache (mkAlarmCache (active_power_issues (alarm_cache m)) d) m.

(** [list(...)]: a new list object. *)
Definition new_list (items : list loc) : M memory loc :=
  fun m =>
    (Ok (next_list m),
     mkMemory (dict_at m) (fun_upd (list_at m) (next_list m) items)
              (S (next_list m)) (alarm_cache m)).

(** A caller assigning to the fields of an alarm dict it holds. *)
Definition mutate_dict (l : loc) (r : record) (m : memory) : memory :=
  mkMemory (fun_upd (dict_at m) l r) (list_at m) (next_list m) (alarm_cache m).

(** [AlarmCache.__init__]. *)
Definition AlarmCache_init : M memory unit :=
  modify (set_cache (mkAlarmCache [] [])).

(** [{a["alarm_id"]: a for a in alarms}], evaluated in the heap [h]. *)
Fixpoint by_alarm_id (h : loc -> record) (alarms : list loc)
    (acc : pydict pykey loc) : result (pydict pykey loc) :=
  match alarms with
  | [] => Ok acc
  | a :: rest =>
      match py_getitem "alarm_id" (h a) with
      | Raise e => Raise e
      | Ok alarm_id =>
          match hash_key alarm_id with
          | Raise e => Raise e
          | Ok k => by_alarm_id h rest (dict_set pykey_eqb k a acc)
          end
      end
  end.

Definition load_power_issues (alarms : list loc) : M memory unit :=
  let! h := gets dict_at in
  let! d := lift (by_alarm_id h alarms []) in
  modify (set_power_issues d).

Definition load_los_alarms (alarms : list loc) : M memory unit :=
  let! h := gets dict_at in
  let! d := lift (by_alarm_id h alarms []) in
  modify (set_los_alarms d).

Definition get_power_issues : M memory loc :=
  let! c := gets alarm_cache in
  new_list (dict_values (active_power_issues c)).

Definition get_los_alarms : M memory loc :=
  let! c := gets alarm_cache in
  new_list (dict_values (active_los_alarms c)).

(** The two category predicates, as [add_or_update] tests them. *)
Definition is_power_issue (alarm : record) : bool :=
  py_eq_str (py_get "alarm_name" alarm) "Power Issue"
  && py_eq_str (py_get "object_type" alarm) "PHYSICALCONNECTION".

Definition is_los_alarm (alarm : record) : bool :=
  py_eq_str (py_get "alarm_name" alarm) "Loss of signal - OCH"
  && (py_eq_str (py_get "severity" alarm) "CRITICAL"
      || py_eq_str (py_get "severity" alarm) "MAJOR").

Definition add_or_update (alarm : loc) : M memory unit :=
  let! a := gets (fun m => dict_at m alarm) in
  let! alarm_id := lift (py_getitem "alarm_id" a) in
  (if is_power_issue a then
     let! k := lift (hash_key alarm_id) in
     let! c := gets alarm_cache in
     modify (set_power_issues (dict_set pykey_eqb k alarm (active_power_issues c)))
   else ret tt) >>
  (if is_los_alarm a then
     let! k := lift (hash_key alarm_id) in
     let! c := gets alarm_cache in
     modify (set_los_alarms (dict_set pykey_eqb k alarm (active_los_alarms c)))
   else ret tt).

(** [d.pop(alarm_id, None)] on a mapping of the cache, giving the dict that
    is left.  An empty dict answers with the default before the key is
    hashed; any other dict hashes the key first, and an unhashable key
    raises. *)
Definition pop_default (alarm_id : pyval) (d : pydict pykey loc)
    : result (pydict pykey loc) :=
  match d with
  | [] => Ok []
  | _ :: _ =>
      match hash_key alarm_id with
      | Ok k => Ok (dict_pop pykey_eqb k d)
      | Raise e => Raise e
      end
  end.

Definition remove (alarm_id : pyval) : M memory unit :=
  let! c := gets alarm_cache in
  let! d := lift (pop_default alarm_id (active_power_issues c)) in
  modify (set_power_issues d) >>
  let! c := gets alarm_cache in
  let! d := lift (pop_default alarm_id (active_los_alarms c)) in
  modify (set_los_alarms d).

(** Any interleaving of calls on the cache, as its clients make them. *)
Inductive cache_op : Type :=
| Load_power_issues (alarms : list loc)
| Load_los_alarms (alarms : list loc)
| Get_power_issues
| Get_los_alarms
| Add_or_update (alarm : loc)
| Remove (alarm_id : pyval).

Definition run_op (op : cache_op) : M memory unit :=
  match op with
  | Load_power_issues alarms => load_power_issues alarms
  | Load_los_alarms alarms => load_los_alarms alarms
  | Get_power_issues => get_power_issues >> ret tt
  | Get_los_alarms => get_los_alarms >> ret tt
  | Add_or_update alarm => add_or_update alarm
  | Remove alarm_id => remove alarm_id
  end.

(** The state after a sequence of calls; a call that raises is caught by
    its caller and the sequence goes on. *)
Definition run_ops (ops : list cache_op) (m : memory) : memory :=
  fold_left (fun m op => snd (run_op op m)) ops m.

(** What a caller reads through a list it holds: the fields of each alarm
    dict in it. *)
Definition view (m : memory) (l : loc) : list record :=
  map (dict_at m) (list_at m l).

(** A caller rearranging a list it holds ([lst.clear()], [lst.append(..)]). *)
Definition mutate_list (l : loc) (items : list loc) (m : memory) : memory :=
  mkMemory (dict_at m) (fun_upd (list_at m) l items) (next_list m) (alarm_cache m).

(** What the next reader call shows. *)
Definition snapshot_power (m : memory) : list record :=
  match get_power_issues m with
  | (Ok l, m') => view m' l
  | (Raise _, _) => []
  end.

Definition snapshot_los (m : memory) : list record :=
  match get_los_alarms m with
  | (Ok l, m') => view m' l
  | (Raise _, _) => []
  end.

(* ===================================================================== *)
(** ** alarm_lifecycle.py *)
(* ===================================================================== *)

(** The three statements, with their bound parameters.  The alarm parameter
    is the JSON document [json.dumps] produces; the [now()] columns are not
    read by any code and are left out. *)
Inductive statement : Type :=
| UPSERT_ACTIVE_SQL (alarm_id : pyval) (alarm : pyval)
| DELETE_ACTIVE_SQL (alarm_id : pyval)
| INSERT_HISTORY_SQL (alarm_id : pyval) (alarm : pyval).

(** Table [active_alarms] has one row per [alarm_id]; [alarm_history] is
    append-only.  Both are carried by their [alarm_id] and [alarm] columns:
    the columns the server fills with [now()] ([last_updated], rewritten by
    every upsert, and [cleared_at]) are left out, and an [alarm] document is
    kept as it was written, where [jsonb] keeps the same document with its
    keys in an order of its own. *)
Record database : Type := mkDatabase {
  active_alarms : pydict pyval pyval;
  alarm_history : list (pyval * pyval)
}.

(** What a statement does to the tables, and the rows it returns. *)
Definition run_statement (q : statement) (db : database) : database * list pyval :=
  match q with
  | UPSERT_ACTIVE_SQL alarm_id alarm =>
      (mkDatabase (dict_set pyval_eqb alarm_id alarm (active_alarms db))
                  (alarm_history db), [])
  | DELETE_ACTIVE_SQL alarm_id =>
      (mkDatabase (dict_pop pyval_eqb alarm_id (active_alarms db))
                  (alarm_history db),
       match dict_get pyval_eqb alarm_id (active_alarms db) with
       | Some alarm => [alarm]
       | None => []
       end)
  | INSERT_HISTORY_SQL alarm_id alarm =>
      (mkDatabase (active_alarms db) (alarm_history db ++ [(alarm_id, alarm)]), [])
  end.

(** Calls the handler issues to its two collaborators, in order. *)
Inductive call : Type :=
| CacheRemove (alarm_id : pyval)
| CacheAddOrUpdate (alarm : loc)
| DbConnect
| DbCursor
| DbExecute (q : statement)
| DbFetchone
| DbCursorClose
| DbCommit
| DbRollback
| DbClose.

(** The handler's world: Python memory, the durable tables, the open
    transaction's view of them, the cursor's pending rows, the outcome of
    the coming store calls ([true]: the call raises; none left: no more
    failures) and the log of calls issued so far.  Connecting, opening a
    cursor, executing, fetching and committing can fail; rolling back and
    closing cannot. *)
Record world : Type := mkWorld {
  mem : memory;
  committed : database;
  txn : database;
  rows : list pyval;
  faults : list bool;
  calls : list call
}.

Definition log (c : call) : M world unit :=
  modify (fun w => mkWorld (mem w) (committed w) (txn w) (rows w) (faults w)
                           (calls w ++ [c])).

(** The next store call raises when the schedule says so. *)
Definition may_fail : M world unit :=
  fun w =>
    match faults w with
    | [] => (Ok tt, w)
    | b :: fs =>
        (if b then Raise DbError else Ok tt,
         mkWorld (mem w) (committed w) (txn w) (rows w) fs (calls w))
    end.

Definition set_txn (db : database) (rs : list pyval) (w : world) : world :=
  mkWorld (mem w) (committed w) db rs (faults w) (calls w).

Definition on_mem {A} (c : M memory A) : M world A :=
  fun w =>
    let (r, m') := c (mem w) in
    (r, mkWorld m' (committed w) (txn w) (rows w) (faults w) (calls w)).

Definition connect : M world unit :=
  log DbConnect >> may_fail >>
  modify (fun w => set_txn (committed w) [] w).

Definition cursor : M world unit :=
  log DbCursor >> may_fail >> modify (fun w => set_txn (txn w) [] w).

Definition execute (q : statement) : M world unit :=
  log (DbExecute q) >> may_fail >>
  modify (fun w => let (db, rs) := run_statement q (txn w) in set_txn db rs w).

(** [cur.fetchone()]: the next row, or [None].  A row here is the one-column
    tuple [(alarm,)], given by its column. *)
Definition fetchone : M world (option pyval) :=
  log DbFetchone >> may_fail >>
  let! rs := gets rows in
  match rs with
  | [] => ret None
  | r :: rs' => modify (fun w => set_txn (txn w) rs' w) >> ret (Some r)
  end.

Definition cursor_close : M world unit := log DbCursorClose.

Definition commit : M world unit :=
  log DbCommit >> may_fail >>
  modify (fun w => mkWorld (mem w) (txn w) (txn w) (rows w) (faults w) (calls w)).

Definition rollback : M world unit :=
  log DbRollback >> modify (fun w => set_txn (committed w) [] w).

Definition close : M world unit := log DbClose.

(** [with get_conn() as conn: body]. *)
Definition get_conn {A} (body : M world A) : M world A :=
  connect >>
  try_finally
    (try_except_reraise (let! a := body in commit >> ret a) rollback)
    close.

(** [with conn.cursor() as cur: body]. *)
Definition with_cursor {A} (body : M world A) : M world A :=
  cursor >> try_finally body cursor_close.

Definition cache_remove (alarm_id : pyval) : M world unit :=
  log (CacheRemove alarm_id) >> on_mem (remove alarm_id).

Definition cache_add_or_update (alarm : loc) : M world unit :=
  log (CacheAddOrUpdate alarm) >> on_mem (add_or_update alarm).

Definition handle_alarm_lifecycle (alarm : loc) : M world unit :=
  let! a := gets (fun w => dict_at (mem w) alarm) in
  let alarm_id := py_get "alarm_id" a in
  let event_type := py_get "event_type" a in
  let severity := py_get "severity" a in
  if negb (truthy alarm_id) || negb (truthy event_type) then ret tt
  else if py_eq_str event_type "alarm-delete" then ret tt
  else
    get_conn (with_cursor (
      if py_eq_str event_type "alarm-change" && py_eq_str severity "CLEAR" then
        cache_remove alarm_id >>
        execute (DELETE_ACTIVE_SQL alarm_id) >>
        let! row := fetchone in
        match row with
        | Some payload =>
            if truthy payload
            then execute (INSERT_HISTORY_SQL alarm_id payload)
            else ret tt
        | None => ret tt
        end
      else if negb (py_eq_str event_type "alarm-create"
                    || py_eq_str event_type "alarm-change") then ret tt
      else if negb (truthy (py_get "alarm_name" a))
              || negb (truthy (py_get "ne_name" a)) then ret tt
      else
        execute (UPSERT_ACTIVE_SQL alarm_id (VDict a)) >>
        cache_add_or_update alarm)).

(* ===================================================================== *)
(** ** alarm_normalizer.py *)
(* ===================================================================== *)

(** *** Strings and numbers

    [str.isdigit] and [int] go by the Unicode database of the interpreter.
    On ASCII text the database is fixed: the digits are "0" to "9", and
    [int] reads them in base ten.  Beyond ASCII there are characters that
    [isdigit] accepts and [int] converts (the digits of other scripts) and
    characters that [isdigit] accepts and [int] rejects (superscript
    digits); for a string with a character beyond ASCII both answers are
    taken from the database as it is given. *)

Definition is_ascii_digit (c : ascii) : bool :=
  let n := nat_of_ascii c in (48 <=? n)%nat && (n <=? 57)%nat.

(** Every character of the string is an ASCII character. *)
Definition is_ascii (s : string) : bool :=
  forallb (fun c => (nat_of_ascii c <? 128)%nat) (list_ascii_of_string s).

(** [s.isdigit()] on ASCII text: at least one character, all of them
    digits. *)
Definition isdigit_ascii (s : string) : bool :=
  match s with
  | EmptyString => false
  | _ => forallb is_ascii_digit (list_ascii_of_string s)
  end.

Definition digit_value (c : ascii) : Z := Z.of_nat (nat_of_ascii c) - 48.

Definition int_of_digits (s : string) : Z :=
  fold_left (fun acc c => 10 * acc + digit_value c) (list_ascii_of_string s) 0.

(** CPython's default limit on the length of a decimal string [int] converts. *)
Definition int_max_str_digits : nat := 4300.

(** The Unicode database, as far as the code consults it: for a string with
    a character beyond ASCII, what [s.isdigit()] answers and what [int(s)]
    gives or raises once [isdigit] has accepted [s]. *)
Record unicode : Type := mkUnicode {
  isdigit_beyond_ascii : string -> bool;
  int_beyond_ascii : string -> result Z
}.

(** [s.isdigit()]. *)
Definition isdigit (u : unicode) (s : string) : bool :=
  if is_ascii s then isdigit_ascii s else isdigit_beyond_ascii u s.

(** [int(s)] for a string that passed [isdigit]. *)
Definition py_int (u : unicode) (s : string) : result Z :=
  if is_ascii s then
    if (int_max_str_digits <? String.length s)%nat then Raise ValueError
    else Ok (int_of_digits s)
  else int_beyond_ascii u s.

Fixpoint str_repeat (n : nat) (s : string) : string :=
  match n with
  | O => ""
  | S n' => s ++ str_repeat n' s
  end.

(** [v * 1000]. *)
Definition py_mul_1000 (v : pyval) : result pyval :=
  match v with
  | VInt z => Ok (VInt (z * 1000))
  | VBool b => Ok (VInt (Z.b2z b * 1000))
  | VStr s => Ok (VStr (str_repeat 1000 s))
  | VList l => Ok (VList (concat (repeat l 1000)))
  | VNone | VDict _ => Raise TypeError
  end.

(** [ts.get("value") or ts.get("milliseconds") or (ts.get("seconds", 0) * 1000)]. *)
Definition ts_of_dict (ts : record) : result pyval :=
  if truthy (py_get "value" ts) then Ok (py_get "value" ts)
  else if truthy (py_get "milliseconds" ts) then Ok (py_get "milliseconds" ts)
  else py_mul_1000 (py_get_default "seconds" (VInt 0) ts).

(** *** Calendar

    [datetime] on an instant given in whole milliseconds since the epoch.
    The quotient [ts / 1000] is taken exactly; CPython takes it in binary64
    and rounds to microseconds, which is the same instant as long as
    [|ts / 1000| < 2^33], the years 1698 to 2242.  An instant outside the
    years 1..9999 makes [datetime] raise. *)

(** Proleptic Gregorian date of a day number counted from 1970-01-01. *)
Definition civil_from_days (days : Z) : Z * Z * Z :=
  let z := days + 719468 in
  let era := z / 146097 in
  let doe := z - era * 146097 in
  let yoe := (doe - doe / 1460 + doe / 36524 - doe / 146096) / 365 in
  let doy := doe - (365 * yoe + yoe / 4 - yoe / 100) in
  let mp := (5 * doy + 2) / 153 in
  let d := doy - (153 * mp + 2) / 5 + 1 in
  let m := if mp <? 10 then mp + 3 else mp - 9 in
  let y := yoe + era * 400 + (if m <=? 2 then 1 else 0) in
  (y, m, d).

Definition digit_char (d : Z) : ascii := ascii_of_nat (48 + Z.to_nat d).

(** [n] in decimal, zero-padded to [width] digits. *)
Fixpoint pad (width : nat) (n : Z) : string :=
  match width with
  | O => ""
  | S w => pad w (n / 10) ++ String (digit_char (n mod 10)) ""
  end.

(** [datetime.isoformat()] without the offset, of an instant in
    milliseconds; [None] when the year is out of range. *)
Definition isoformat_ms (ms : Z) : option string :=
  let secs := ms / 1000 in
  let micro := (ms mod 1000) * 1000 in
  let '(y, m, d) := civil_from_days (secs / 86400) in
  let sod := secs mod 86400 in
  if (1 <=? y) && (y <=? 9999) then
    Some (pad 4 y ++ "-" ++ pad 2 m ++ "-" ++ pad 2 d ++ "T"
          ++ pad 2 (sod / 3600) ++ ":" ++ pad 2 (sod / 60 mod 60) ++ ":"
          ++ pad 2 (sod mod 60)
          ++ (if Z.eqb micro 0 then "" else "." ++ pad 6 micro))%string
  else None.

(** The [+HH:MM] suffix of an aware datetime (with [:SS] when the offset has
    seconds). *)
Definition isoformat_offset (off : Z) : string :=
  let a := Z.abs off in
  (if Z.ltb off 0 then "-" else "+")
  ++ pad 2 (a / 3600) ++ ":" ++ pad 2 (a / 60 mod 60)
  ++ (if Z.eqb (a mod 60) 0 then "" else ":" ++ pad 2 (a mod 60)).

(** The number behind an [int] (a [bool] is an [int]). *)
Definition as_number (ts : pyval) : option Z :=
  match ts with
  | VInt z => Some z
  | VBool b => Some (Z.b2z b)
  | _ => None
  end.

(** The part the two converters share: from the argument to the number of
    milliseconds, [Ok None] standing for an early [return None]. *)
Definition ts_to_ms (u : unicode) (ts : pyval) : result (option Z) :=
  match ts with
  | VNone => Ok None
  | _ =>
      match (match ts with VDict d => ts_of_dict d | _ => Ok ts end) with
      | Raise e => Raise e
      | Ok ts =>
          match ts with
          | VStr s =>
              if negb (isdigit u s) then Ok None
              else match py_int u s with
                   | Raise e => Raise e
                   | Ok z => Ok (Some z)
                   end
          | _ => Ok (as_number ts)
          end
      end
  end.

Definition str_or_none (o : option string) : pyval :=
  match o with
  | Some s => VStr s
  | None => VNone
  end.

Definition epoch_ms_to_utc (u : unicode) (ts : pyval) : result pyval :=
  match ts_to_ms u ts with
  | Raise e => Raise e
  | Ok None => Ok VNone
  | Ok (Some ms) =>
      Ok (str_or_none (option_map (fun s => (s ++ "Z")%string) (isoformat_ms ms)))
  end.


(** [s.replace(old, new)] for a non-empty [old]: every occurrence, left to
    right, without overlap.  [skip] counts the characters of an occurrence
    still to be passed over. *)
Fixpoint str_replace_from (old new : string) (skip : nat) (s : string) : string :=
  match s with
  | EmptyString => ""
  | String c s' =>
      match skip with
      | S n => str_replace_from old new n s'
      | O =>
          if String.prefix old s
          then new ++ str_replace_from old new (String.length old - 1) s'
          else String c (str_replace_from old new 0 s')
      end
  end.

Definition str_replace (old new s : string) : string :=
  str_replace_from old new 0 s.

(** [v.get(k, dflt)] on an arbitrary value: only a dict has [get]. *)
Definition attr_get (k : string) (dflt : pyval) (v : pyval) : result pyval :=
  match v with
  | VDict d => Ok (py_get_default k dflt d)
  | _ => Raise AttributeError
  end.

(** [v.items()]. *)
Definition attr_items (v : pyval) : result record :=
  match v with
  | VDict d => Ok d
  | _ => Raise AttributeError
  end.

(** The loop over [notif.items()]: the first key starting with
    ["nsp-fault:"] gives the event type and the alarm. *)
Fixpoint find_fault (items : record) : option (string * pyval) :=
  match items with
  | [] => None
  | (k, v) :: rest =>
      if String.prefix "nsp-fault:" k
      then Some (str_replace "nsp-fault:" "" k, v)
      else find_fault rest
  end.

Section Normalizer.
(** The Unicode database of the interpreter. *)
Variable unicode_db : unicode.
(** [pytz.timezone("Asia/Dhaka")]: the offset from UTC, in seconds, in
    force at a UTC instant given in seconds since the epoch. *)
Variable LOCAL_TZ : Z -> Z.
(** The collaborators imported from [severity_mapper], [object_parser]
    and [alarm_filters].  [map_severity] and [parse_affected_object] are
    handed values of the notification and return a value or raise.
    [should_drop_alarm] is handed its first ten keyword arguments, here as
    one record, and the two list objects the readers have just returned,
    through which it reaches the alarm dicts the cache holds: it runs on
    the memory, which it may read and write, and it may raise.  Its result
    is the truth value of what it returns. *)
Variable map_severity : pyval -> pyval -> result pyval.
Variable parse_affected_object : pyval -> result pyval.
Variable should_drop_alarm : record -> loc -> loc -> M memory bool.

Definition utc_ms_to_local_iso (ts : pyval) : result pyval :=
  match ts_to_ms unicode_db ts with
  | Raise e => Raise e
  | Ok None => Ok VNone
  | Ok (Some ms) =>
      match isoformat_ms ms with
      | None => Ok VNone
      | Some _ =>
          let off := LOCAL_TZ (ms / 1000) in
          Ok (str_or_none
                (option_map (fun s => (s ++ isoformat_offset off)%string)
                            (isoformat_ms (ms + off * 1000))))
      end
  end.

Definition normalize_alarm (event : pyval) : M memory pyval :=
  let! data := lift (attr_get "data" (VDict []) event) in
  let! notif := lift (attr_get "ietf-restconf:notification" (VDict []) data) in
  let! items := lift (attr_items notif) in
  match find_fault items with
  | None => ret VNone
  | Some (event_type, VDict alarm) =>
      if negb (truthy (VDict alarm)) then ret VNone
      else
        let alarm_name := py_get "alarmName" alarm in
        let specific_problem := py_get "specificProblem" alarm in
        let probable_cause := py_get "probableCause" alarm in
        let ne_name := py_get "neName" alarm in
        let ne_id := py_get "neId" alarm in
        let source := py_get "sourceType" alarm in
        let object_type := py_get "affectedObjectType" alarm in
        let severity_raw := py_get "severity" alarm in
        let! severity := lift (map_severity severity_raw specific_problem) in
        let! active_power_issues := get_power_issues in
        let! active_los_alarms := get_los_alarms in
        let! first_detected :=
          lift (epoch_ms_to_utc unicode_db (py_get "firstTimeDetected" alarm)) in
        let! drop :=
          should_drop_alarm
            [("alarm_name", alarm_name);
             ("specific_problem", specific_problem);
             ("probable_cause", probable_cause);
             ("ne_name", ne_name);
             ("ne_id", ne_id);
             ("source", source);
             ("object_type", object_type);
             ("severity", severity);
             ("affected_object_name", py_get "affectedObjectName" alarm);
             ("first_detected", first_detected)]
            active_power_issues active_los_alarms in
        if drop then ret VNone
        else
          let! object_details :=
            lift (parse_affected_object (py_get "affectedObject" alarm)) in
          let! first := lift (utc_ms_to_local_iso (py_get "firstTimeDetected" alarm)) in
          let! last := lift (utc_ms_to_local_iso (py_get "lastTimeDetected" alarm)) in
          ret (VDict
                 [("event_type", VStr event_type);
                  ("event_time", py_get "eventTime" items);
                  ("alarm_id", py_get "objectId" alarm);
                  ("alarm_name", alarm_name);
                  ("specific_problem", specific_problem);
                  ("probable_cause", probable_cause);
                  ("ne_name", ne_name);
                  ("ne_id", ne_id);
                  ("source", source);
                  ("severity_raw", severity_raw);
                  ("severity", severity);
                  ("affected_object", py_get "affectedObject" alarm);
                  ("affected_object_name", py_get "affectedObjectName" alarm);
                  ("object_type", object_type);
                  ("object_details", object_details);
                  ("first_detected", first);
                  ("last_detected", last);
                  ("acknowledged",
                   py_get_default "acknowledged" (VBool false) alarm);
                  ("service_affecting", py_get "serviceAffecting" alarm);
                  ("implicitly_cleared",
                   py_get_default "implicitlyCleared" (VBool false) alarm)])
  | Some (_, _) => ret VNone
  end.
End Normalizer.

(* ===================================================================== *)
(** ** token_manager.py *)
(* ===================================================================== *)

Module TokenManager.

(** Exceptions of this file: the [RuntimeError] of [_save_tokens], what
    [requests] raises ([HTTPError] from [raise_for_status], any other
    [RequestException] when no answer comes, a decoding error from
    [r.json()]) and the lookup errors of Python. *)
Inductive exn : Type :=
| RuntimeError
| HTTPError (status : Z)
| RequestException
| JSONDecodeError
| KeyError
| TypeError
| AttributeError.

Inductive outcome (A : Type) : Type :=
| Ret (a : A)
| Exc (e : exn).
Arguments Ret {A} a.
Arguments Exc {A} e.

(** The POSTs the manager sends. *)
Inductive request : Type :=
| PostCredentials
| PostRefresh (refresh_token : pyval)
| PostRevoke (token : pyval).

(** What comes back: nothing ([requests.post] raises), or a response with
    its status code and its body as [r.json()] reads it ([None]: the body is
    not JSON). *)
Inductive reply : Type :=
| NoReply
| Reply (status : Z) (body : option pyval).

(** The world of the manager: the document in the token file ([None]: no
    file), the clock in seconds, the replies to the coming requests (none
    left: no reply) and the requests sent so far.  The file system does not
    fail, and the file holds what [_save_tokens] wrote, which is JSON. *)
Record state : Type := mkState {
  token_file : option pyval;
  clock : Z;
  replies : list reply;
  sent : list request
}.

Definition T (A : Type) : Type := state -> outcome A * state.

Definition ret {A} (a : A) : T A := fun s => (Ret a, s).
Definition throw {A} (e : exn) : T A := fun s => (Exc e, s).
Definition bind {A B} (c : T A) (k : A -> T B) : T B :=
  fun s =>
    match c s with
    | (Ret a, s') => k a s'
    | (Exc e, s') => (Exc e, s')
    end.

Notation "'let*' x ':=' c 'in' k" := (bind c (fun x => k))
  (at level 10, x name, c at level 100, k at level 200,
   format "'[v' 'let*'  x  ':='  c  'in' '/' k ']'").

(** [requests.post(...)]. *)
Definition post (q : request) : T (Z * option pyval) :=
  fun s =>
    match replies s with
    | Reply status body :: rest =>
        (Ret (status, body),
         mkState (token_file s) (clock s) rest (sent s ++ [q]))
    | NoReply :: rest =>
        (Exc RequestException,
         mkState (token_file s) (clock s) rest (sent s ++ [q]))
    | [] =>
        (Exc RequestException,
         mkState (token_file s) (clock s) [] (sent s ++ [q]))
    end.

(** [r.json()]. *)
Definition json_of (body : option pyval) : T pyval :=
  match body with
  | Some data => ret data
  | None => throw JSONDecodeError
  end.

(** [v.get(k)] on what the file holds: only a dict has [get]. *)
Definition get_attr (k : string) (v : pyval) : T pyval :=
  match v with
  | VDict d => ret (py_get k d)
  | _ => throw AttributeError
  end.

(** [s.split(sep)] for a one-character separator. *)
Fixpoint split (sep : ascii) (s : string) : list string :=
  match s with
  | EmptyString => [EmptyString]
  | String c s' =>
      if Ascii.eqb c sep then EmptyString :: split sep s'
      else match split sep s' with
           | piece :: pieces => String c piece :: pieces
           | [] => [String c EmptyString]
           end
  end.

(** ["=" * (-len(payload) % 4)]. *)
Definition padding (payload : string) : string :=
  str_repeat (Z.to_nat ((- Z.of_nat (String.length payload)) mod 4)) "=".

Section Methods.
(** [self.refresh_before], and the two library decoders:
    [base64.urlsafe_b64decode] and [json.loads], [None] when they raise. *)
Variable refresh_before : Z.
Variable urlsafe_b64decode : string -> option string.
Variable json_loads : string -> option pyval.

Definition _now : T Z := fun s => (Ret (clock s), s).

Definition _save_tokens (data : pyval) : T unit :=
  match data with
  | VDict d =>
      match dict_get String.eqb "access_token" d with
      | Some _ =>
          fun s => (Ret tt, mkState (Some data) (clock s) (replies s) (sent s))
      | None => throw RuntimeError
      end
  | _ => throw RuntimeError
  end.

(** The document of the file, [None] when there is no file. *)
Definition _load_tokens : T pyval :=
  fun s =>
    (Ret match token_file s with
         | Some data => data
         | None => VNone
         end, s).

(** Every exception inside is caught and gives [None]. *)
Definition _decode_exp (token : pyval) : pyval :=
  match token with
  | VStr t =>
      match split "."%char t with
      | _ :: payload :: _ =>
          match urlsafe_b64decode (payload ++ padding payload) with
          | Some decoded =>
              match json_loads decoded with
              | Some (VDict claims) => py_get "exp" claims
              | _ => VNone
              end
          | None => VNone
          end
      | _ => VNone
      end
  | _ => VNone
  end.

Definition _get_token : T unit :=
  let* r := post PostCredentials in
  let '(status, body) := r in
  if (400 <=? status) && (status <? 600) then throw (HTTPError status)
  else
    let* data := json_of body in
    _save_tokens data.

Definition _refresh_token : T bool :=
  let* tokens := _load_tokens in
  if negb (truthy tokens) then ret false
  else
    let* refresh := get_attr "refresh_token" tokens in
    if negb (truthy refresh) then ret false
    else
      let* r := post (PostRefresh refresh) in
      let '(status, body) := r in
      if negb (status =? 200) then ret false
      else
        let* data := json_of body in
        let* _ := _save_tokens data in
        ret true.

Definition ensure_token : T unit :=
  let* tokens := _load_tokens in
  if negb (truthy tokens) then _get_token
  else
    let* token := get_attr "access_token" tokens in
    let exp := _decode_exp token in
    let* now := _now in
    if match as_number exp with
       | Some n => n - now <? refresh_before
       | None => true
       end
    then
      let* refreshed := _refresh_token in
      if negb refreshed then _get_token else ret tt
    else ret tt.

(** [tokens["access_token"]]. *)
Definition get_access_token : T pyval :=
  let* _ := ensure_token in
  let* tokens := _load_tokens in
  match tokens with
  | VDict d =>
      match dict_get String.eqb "access_token" d with
      | Some v => ret v
      | None => throw KeyError
      end
  | _ => throw TypeError
  end.

Definition revoke : T unit :=
  let* tokens := _load_tokens in
  if negb (truthy tokens) then ret tt
  else
    let* token := get_attr "access_token" tokens in
    if negb (truthy token) then ret tt
    else
      let* _ := post (PostRevoke token) in
      fun s => (Ret tt, mkState None (clock s) (replies s) (sent s)).

(** The public methods and the two requests behind them. *)
Inductive method : Type :=
| Ensure_token
| Get_access_token
| Revoke
| Refresh_token
| Get_token.

Definition call (f : method) (s : state) : state :=
  match f with
  | Ensure_token => snd (ensure_token s)
  | Get_access_token => snd (get_access_token s)
  | Revoke => snd (revoke s)
  | Refresh_token => snd (_refresh_token s)
  | Get_token => snd (_get_token s)
  end.

End Methods.

(** The file is absent or holds a dict with the key access_token. *)
Definition file_ok (s : state) : Prop :=
  match token_file s with
  | None => True
  | Some (VDict d) => is_Some (dict_get String.eqb "access_token" d)
  | Some _ => False
  end.

End TokenManager.


(* ===================================================================== *)
(** ** full_flow_main.py: cleanup *)
(* ===================================================================== *)

Module Main.

(** Exceptions in [cleanup]: those of the token manager; the failure of a
    [print], whose stream may be closed or unable to encode the text (an
    [OSError], a [ValueError]); and whatever [delete_subscription] raises,
    which [except Exception] catches unless its class derives from
    [BaseException] alone ([KeyboardInterrupt], [SystemExit]). *)
Inductive exn : Type :=
| TokenManagerError (e : TokenManager.exn)
| PrintError
| OtherException (name : string)
| NotAnException (name : string).

(** [isinstance(e, Exception)]. *)
Definition is_Exception (e : exn) : bool :=
  match e with
  | NotAnException _ => false
  | _ => true
  end.

Inductive outcome (A : Type) : Type :=
| Ret (a : A)
| Exc (e : exn).
Arguments Ret {A} a.
Arguments Exc {A} e.

(** The calls made to [delete_subscription]. *)
Inductive action : Type :=
| DeleteSubscription (subscription_id : pyval).

(** The globals of the module: the [cleanup_done] flag, the stop event
    (set or not), the subscription id ([None] until a subscription exists)
    and the token manager ([false]: the global is still [None]); then the
    world the token manager acts on, which is there whether or not the
    manager has been built, the outcome of the coming [print]s of [cleanup]
    ([true]: the print raises; none left: no more failures), and the calls
    made to [delete_subscription] so far. *)
Record state : Type := mkState {
  cleanup_done : bool;
  stop_event : bool;
  subscription_id : pyval;
  token_mgr : bool;
  tokens : TokenManager.state;
  stdout : list bool;
  actions : list action
}.

Definition P (A : Type) : Type := state -> outcome A * state.

Definition bind {A B} (c : P A) (k : A -> P B) : P B :=
  fun s =>
    match c s with
    | (Ret a, s') => k a s'
    | (Exc e, s') => (Exc e, s')
    end.

Notation "c1 '>>>' c2" := (bind c1 (fun _ => c2))
  (at level 90, right associativity).

Definition skip : P unit := fun s => (Ret tt, s).

(** [print(...)]. *)
Definition print : P unit :=
  fun s =>
    match stdout s with
    | [] => (Ret tt, s)
    | b :: rest =>
        (if b then Exc PrintError else Ret tt,
         mkState (cleanup_done s) (stop_event s) (subscription_id s)
                 (token_mgr s) (tokens s) rest (actions s))
    end.

(** [try: body except Exception as e: print(...)]. *)
Definition try_except (body : P unit) : P unit :=
  fun s =>
    match body s with
    | (Exc e, s') => if is_Exception e then print s' else (Exc e, s')
    | r => r
    end.

(** [cleanup_done = True]. *)
Definition set_cleanup_done : P unit :=
  fun s =>
    (Ret tt,
     mkState true (stop_event s) (subscription_id s) (token_mgr s) (tokens s)
             (stdout s) (actions s)).

(** [stop_event.set()]. *)
Definition stop_event_set : P unit :=
  fun s =>
    (Ret tt,
     mkState (cleanup_done s) true (subscription_id s) (token_mgr s) (tokens s)
             (stdout s) (actions s)).

(** [token_mgr.revoke()], the method of [token_manager.py]. *)
Definition token_mgr_revoke : P unit :=
  fun s =>
    let (r, t) := TokenManager.revoke (tokens s) in
    (match r with
     | TokenManager.Ret _ => Ret tt
     | TokenManager.Exc e => Exc (TokenManagerError e)
     end,
     mkState (cleanup_done s) (stop_event s) (subscription_id s) (token_mgr s)
             t (stdout s) (actions s)).

Section Cleanup.
(** [delete_subscription], imported from a module of its own: it is handed
    the token manager (or [None]: [false]) and the subscription id, does
    what it will with the token manager and its world, and returns or
    raises. *)
Variable delete_subscription :
  bool -> pyval -> TokenManager.state -> outcome unit * TokenManager.state.

(** [delete_subscription(token_mgr, subscription_id)]. *)
Definition call_delete_subscription : P unit :=
  fun s =>
    let (r, t) :=
      delete_subscription (token_mgr s) (subscription_id s) (tokens s) in
    (r, mkState (cleanup_done s) (stop_event s) (subscription_id s)
                (token_mgr s) t (stdout s)
                (actions s ++ [DeleteSubscription (subscription_id s)])).

Definition cleanup : P unit :=
  fun s =>
    if cleanup_done s then (Ret tt, s)
    else
      (set_cleanup_done >>>
       print >>>
       stop_event_set >>>
       (fun s1 =>
          (if truthy (subscription_id s1)
           then try_except call_delete_subscription
           else skip) s1) >>>
       (fun s2 =>
          (if token_mgr s2 then try_except token_mgr_revoke else skip) s2)) s.

End Cleanup.

End Main.


(* ===================================================================== *)
(** ** Vocabulary of the properties, and sample data *)
(* ===================================================================== *)

(** Every alarm dict a category holds satisfies the category's predicate. *)
Definition respects_predicates (m : memory) : Prop :=
  Forall (fun a => is_power_issue (dict_at m a) = true)
         (dict_values (active_power_issues (alarm_cache m)))
  /\ Forall (fun a => is_los_alarm (dict_at m a) = true)
            (dict_values (active_los_alarms (alarm_cache m))).

(** A loader call is given alarms of its own category only, as the two
    startup queries select them. *)
Definition load_filtered (h : loc -> record) (op : cache_op) : Prop :=
  match op with
  | Load_power_issues alarms =>
      Forall (fun a => is_power_issue (h a) = true) alarms
  | Load_los_alarms alarms =>
      Forall (fun a => is_los_alarm (h a) = true) alarms
  | _ => True
  end.

(** A reader hands out a shallow copy.  [get] is the reader, [snapshot]
    what its next call shows and [stored] the mapping it reads.  The call
    returns a new list object holding the references the mapping holds; no
    later sequence of cache calls changes that list or the alarm dicts in
    it; rearranging any list object changes no later snapshot; and after a
    caller assigns fields [r] to an alarm dict [a], the next snapshot shows
    the same alarm dicts in the same order, [a] with its new fields. *)
Definition shallow_copy (get : M memory loc) (snapshot : memory -> list record)
    (stored : AlarmCache -> pydict pykey loc) (m : memory) : Prop :=
  let l := next_list m in
  let m1 := snd (get m) in
  fst (get m) = Ok l
  /\ list_at m1 l = dict_values (stored (alarm_cache m))
  /\ (forall ops : list cache_op,
        list_at (run_ops ops m1) l = list_at m1 l
        /\ view (run_ops ops m1) l = view m1 l)
  /\ (forall (l' : loc) (items : list loc),
        snapshot (mutate_list l' items m1) = snapshot m1)
  /\ (forall (a : loc) (r : record),
        snapshot (mutate_dict a r m1)
        = map (fun x => if Nat.eqb x a then r else dict_at m1 x) (list_at m1 l)).

(** *** Sample alarms *)

Definition sample_power_issue : record :=
  [("alarm_id", VStr "A1"); ("event_type", VStr "alarm-create");
   ("alarm_name", VStr "Power Issue");
   ("object_type", VStr "PHYSICALCONNECTION");
   ("ne_name", VStr "NE1"); ("severity", VStr "MAJOR")].

Definition sample_los : record :=
  [("alarm_id", VStr "A2"); ("event_type", VStr "alarm-create");
   ("alarm_name", VStr "Loss of signal - OCH");
   ("object_type", VStr "OCH"); ("ne_name", VStr "NE2");
   ("severity", VStr "CRITICAL")].

Definition sample_link_down : record :=
  [("alarm_id", VStr "A3"); ("event_type", VStr "alarm-create");
   ("alarm_name", VStr "Link Down"); ("ne_name", VStr "NE3");
   ("severity", VStr "MINOR")].

(** A heap with the sample alarms and events, and empty dicts elsewhere. *)
(** The alarm of [sample_power_issue] after its object type changed. *)
Definition sample_power_issue_moved : record :=
  [("alarm_id", VStr "A1"); ("event_type", VStr "alarm-change");
   ("alarm_name", VStr "Power Issue"); ("object_type", VStr "EQUIPMENT");
   ("ne_name", VStr "NE1"); ("severity", VStr "MAJOR")].

(** A1 clears; a clear carries neither alarm_name nor ne_name here. *)
Definition sample_clear : record :=
  [("alarm_id", VStr "A1"); ("event_type", VStr "alarm-change");
   ("severity", VStr "CLEAR")].

Definition sample_delete : record :=
  [("alarm_id", VStr "A1"); ("event_type", VStr "alarm-delete")].

(** A create event without ne_name. *)
Definition sample_no_ne_name : record :=
  [("alarm_id", VStr "A4"); ("event_type", VStr "alarm-create");
   ("alarm_name", VStr "Power Issue");
   ("object_type", VStr "PHYSICALCONNECTION"); ("severity", VStr "MAJOR")].

Definition sample_heap (l : loc) : record :=
  match l with
  | 0%nat => sample_power_issue
  | 1%nat => sample_los
  | 2%nat => sample_link_down
  | 3%nat => sample_power_issue_moved
  | 5%nat => sample_clear
  | 6%nat => sample_delete
  | 7%nat => sample_no_ne_name
  | _ => []
  end.

Definition sample_memory : memory :=
  mkMemory sample_heap (fun _ => []) 0%nat (mkAlarmCache [] []).

(** The same, with [sample_power_issue] and [sample_los] cached. *)
Definition sample_loaded : memory :=
  run_ops [Add_or_update 0%nat; Add_or_update 1%nat] sample_memory.

(** A notification as the consumer hands it to the normaliser. *)
Definition sample_envelope : pyval :=
  VDict
    [("data",
      VDict
        [("ietf-restconf:notification",
          VDict
            [("eventTime", VStr "2023-11-14T22:13:21Z");
             ("nsp-fault:alarm-create",
              VDict
                [("objectId", VStr "A1");
                 ("alarmName", VStr "Power Issue");
                 ("neName", VStr "NE1");
                 ("affectedObjectType", VStr "PHYSICALCONNECTION");
                 ("severity", VStr "major");
                 ("firstTimeDetected", VInt 1700000000000);
                 ("lastTimeDetected", VStr "1700000000123")])])])].

(** *** Reading the filter

    What a filter may not do if the cache is to stay as it is: it keeps
    both mappings, every alarm dict and every list that existed. *)
Definition only_reads (c : M memory bool) : Prop :=
  forall m0 : memory,
    alarm_cache (snd (c m0)) = alarm_cache m0
    /\ dict_at (snd (c m0)) = dict_at m0
    /\ (forall l, (l < next_list m0)%nat -> list_at (snd (c m0)) l = list_at m0 l).

(** *** A sample of the Unicode database

    Two characters beyond ASCII, in UTF-8: SUPERSCRIPT TWO, which [isdigit]
    accepts and [int] rejects, and ARABIC-INDIC DIGIT THREE, which [isdigit]
    accepts and [int] reads as 3. *)
Definition superscript_two : string :=
  String (ascii_of_nat 194) (String (ascii_of_nat 178) "").

Definition arabic_indic_three : string :=
  String (ascii_of_nat 217) (String (ascii_of_nat 163) "").

Definition sample_unicode : unicode :=
  mkUnicode
    (fun s => String.eqb s superscript_two || String.eqb s arabic_indic_three)
    (fun s => if String.eqb s arabic_indic_three then Ok 3 else Raise ValueError).

(** *** Reading the handler's world *)

(** The first [n] store calls to come succeed. *)
Definition first_calls_succeed (n : nat) (w : world) : bool :=
  forallb negb (firstn n (faults w)).

(** [c1] is issued strictly before every [c2] in a sequence of calls. *)
Definition issued_before (c1 c2 : call) (cs : list call) : Prop :=
  forall pre post, cs = pre ++ c2 :: post -> In c1 pre.


(** A call that can change the tables or the cache: a statement or a cache
    writer. *)
Definition is_mutation (c : call) : bool :=
  match c with
  | CacheRemove _ | CacheAddOrUpdate _ | DbExecute _ => true
  | _ => false
  end.

(** The two event classes the handler tells apart, with its own tests. *)
Definition is_clear (a : record) : bool :=
  py_eq_str (py_get "event_type" a) "alarm-change"
  && py_eq_str (py_get "severity" a) "CLEAR".

Definition is_create_or_change (a : record) : bool :=
  py_eq_str (py_get "event_type" a) "alarm-create"
  || py_eq_str (py_get "event_type" a) "alarm-change".

(** Every active row carries a non-empty document, as every row written by
    the handler does. *)
Definition payloads_nonempty (db : database) : Prop :=
  Forall (fun row => truthy (snd row) = true) (active_alarms db).

(** A world at rest: no transaction open, nothing logged yet. *)
Definition world_at_rest (m : memory) (db : database) (fs : list bool) : world :=
  mkWorld m db db [] fs [].

(** The store after A1 was created. *)
Definition sample_db : database :=
  mkDatabase [(VStr "A1", VDict sample_power_issue)] [].

(** *** Reading the loaders *)

(** The key under which a loader files an alarm dict: its hashed alarm_id. *)
Definition key_of (h : loc -> record) (a : loc) : option pykey :=
  match py_getitem "alarm_id" (h a) with
  | Ok alarm_id =>
      match hash_key alarm_id with
      | Ok k => Some k
      | Raise _ => None
      end
  | Raise _ => None
  end.

(** The last alarm of a list that is filed under [k]. *)
Definition last_with_key (h : loc -> record) (k : pykey) (alarms : list loc)
    : option loc :=
  find (fun a => match key_of h a with
                 | Some k' => pykey_eqb k k'
                 | None => false
                 end)
       (rev alarms).


(** [l] ends with the calls [suffix]. *)
Definition ends_with (suffix l : list call) : Prop :=
  exists pre, l = pre ++ suffix.


(** An event of a type the handler does not know, put at reference 8 of the
    sample memory. *)
Definition sample_heartbeat : record :=
  [("alarm_id", VStr "A1"); ("event_type", VStr "heartbeat")].

Definition sample_extended : memory :=
  mutate_dict 8%nat sample_heartbeat sample_loaded.


(** [old in s]: [old] occurs somewhere in [s]. *)
Fixpoint occurs (old s : string) : bool :=
  match s with
  | EmptyString => String.prefix old ""
  | String _ s' => String.prefix old s || occurs old s'
  end.


(** *** A sample token file *)

(** Stand-ins for the two decoders: the payload segment "p", padded to
    "p===", decodes to claims that expire at second 2000. *)
Definition sample_b64decode (s : string) : option string := Some s.

Definition sample_json_loads (s : string) : option pyval :=
  if String.eqb s "p===" then Some (VDict [("exp", VInt 2000)]) else None.

Definition sample_tokens : pyval :=
  VDict [("access_token", VStr "h.p.s"); ("refresh_token", VStr "r1")].

Definition sample_new_tokens : pyval :=
  VDict [("access_token", VStr "h2.p.s")].

(** The file holds [sample_tokens], the clock shows [now] and the server
    will answer with [rs]. *)
Definition sample_tm_state (now : Z) (rs : list TokenManager.reply)
    : TokenManager.state :=
  TokenManager.mkState (Some sample_tokens) now rs [].


(** A [delete_subscription] that asks the token manager for a token and
    then finds the subscription service down. *)
Definition sample_delete_subscription (token_mgr : bool) (_ : pyval)
    (t : TokenManager.state) : Main.outcome unit * TokenManager.state :=
  if token_mgr then
    (Main.Exc (Main.OtherException "ConnectionError"),
     snd (TokenManager.get_access_token 300 sample_b64decode
            sample_json_loads t))
  else (Main.Exc (Main.OtherException "AttributeError"), t).

(** The process after startup: a subscription, and a token manager whose
    file holds [sample_tokens]; the auth server will answer with [rs] and
    every print succeeds. *)
Definition sample_main (rs : list TokenManager.reply) : Main.state :=
  Main.mkState false false (VStr "sub-1") true (sample_tm_state 1900 rs)
    [] [].


(* ===================================================================== *)
(** ** Properties of the cache *)
(* ===================================================================== *)

Section DictFacts.
Context {K V : Type} (eqb : K -> K -> bool).
Implicit Types (d : pydict K V) (P : V -> Prop).

Lemma dict_values_set P k v d :
  P v -> Forall P (dict_values d) -> Forall P (dict_values (dict_set eqb k v d)).
Proof.
  intros Hv. unfold dict_values.
  induction d as [|[k' v'] d IH]; simpl; intros Hd.
  - constructor; [exact Hv | constructor].
  - inversion Hd; subst. destruct (eqb k k'); simpl; constructor; auto.
Qed.

Lemma dict_values_pop P k d :
  Forall P (dict_values d) -> Forall P (dict_values (dict_pop eqb k d)).
Proof.
  unfold dict_values.
  induction d as [|[k' v'] d IH]; simpl; intros Hd; [constructor|].
  inversion Hd; subst. destruct (eqb k k'); simpl; [assumption|].
  constructor; auto.
Qed.

(** Assigning to a key removes no key. *)
Lemma dict_get_set_is_Some k v k0 d :
  is_Some (dict_get eqb k0 d) -> is_Some (dict_get eqb k0 (dict_set eqb k v d)).
Proof.
  induction d as [|[k' v'] d IH]; simpl; intros H.
  - destruct H as [? H]; discriminate.
  - destruct (eqb k k') eqn:E; simpl; destruct (eqb k0 k'); eauto.
Qed.
End DictFacts.

Lemma by_alarm_id_values (P : loc -> Prop) h alarms acc d :
  Forall P alarms -> Forall P (dict_values acc) ->
  by_alarm_id h alarms acc = Ok d -> Forall P (dict_values d).
Proof.
  revert acc. induction alarms as [|a rest IH]; simpl; intros acc Ha Hacc Hd.
  - congruence.
  - inversion Ha; subst.
    destruct (py_getitem "alarm_id" (h a)); [|discriminate].
    destruct (hash_key a0); [|discriminate].
    apply (IH (dict_set pykey_eqb a1 a acc)); [assumption | | assumption].
    apply dict_values_set; assumption.
Qed.

(** Unfolding the bodies of the cache methods. *)
Ltac unfold_cache :=
  unfold load_power_issues, load_los_alarms, get_power_issues,
    get_los_alarms, add_or_update, remove, new_list, AlarmCache_init,
    bind, ret, gets, modify, lift, set_power_issues, set_los_alarms,
    set_cache in *;
  simpl in *.

(** What [pop] leaves is the dict without one key. *)
Lemma pop_default_is_pop alarm_id d d' :
  pop_default alarm_id d = Ok d' -> exists k, d' = dict_pop pykey_eqb k d.
Proof.
  destruct d as [|kv d]; simpl.
  - intros H. injection H as <-. exists KNone. reflexivity.
  - destruct (hash_key alarm_id) as [k|]; [|discriminate].
    intros H. injection H as <-. exists k. reflexivity.
Qed.

Lemma pop_default_hashable alarm_id k d :
  hash_key alarm_id = Ok k -> pop_default alarm_id d = Ok (dict_pop pykey_eqb k d).
Proof. intros H. destruct d; simpl; [|rewrite H]; reflexivity. Qed.

(** An unhashable key gets past an empty dict only. *)
Lemma pop_default_unhashable alarm_id e d d' :
  hash_key alarm_id = Raise e -> pop_default alarm_id d = Ok d' ->
  d = [] /\ d' = [].
Proof.
  intros H. destruct d; simpl; [|rewrite H; discriminate].
  intros H'. injection H' as <-. split; reflexivity.
Qed.

Lemma pop_default_raises alarm_id e d :
  pop_default alarm_id d = Raise e -> hash_key alarm_id = Raise e.
Proof.
  destruct d; simpl; [discriminate|].
  destruct (hash_key alarm_id); [discriminate | intros H; congruence].
Qed.

(** The two steps of [remove]. *)
Lemma remove_run alarm_id m :
  remove alarm_id m
  = match pop_default alarm_id (active_power_issues (alarm_cache m)) with
    | Raise e => (Raise e, m)
    | Ok d1 =>
        match pop_default alarm_id (active_los_alarms (alarm_cache m)) with
        | Raise e => (Raise e, set_power_issues d1 m)
        | Ok d2 => (Ok tt, set_los_alarms d2 (set_power_issues d1 m))
        end
    end.
Proof.
  unfold remove, bind, gets, lift, modify.
  destruct (pop_default alarm_id (active_power_issues (alarm_cache m)));
    [|reflexivity].
  simpl. destruct (pop_default alarm_id (active_los_alarms (alarm_cache m)));
    reflexivity.
Qed.

(** No cache method writes to an alarm dict. *)
Lemma run_op_dict_at op m : dict_at (snd (run_op op m)) = dict_at m.
Proof.
  destruct op; simpl; unfold_cache.
  - destruct (by_alarm_id _ _ _); reflexivity.
  - destruct (by_alarm_id _ _ _); reflexivity.
  - reflexivity.
  - reflexivity.
  - destruct (py_getitem _ _) as [alarm_id|]; simpl; [|reflexivity].
    destruct (is_power_issue _), (is_los_alarm _), (hash_key alarm_id);
      reflexivity.
  - destruct (pop_default _ _); [destruct (pop_default _ _)|]; reflexivity.
Qed.

Lemma run_ops_dict_at ops m : dict_at (run_ops ops m) = dict_at m.
Proof.
  revert m. induction ops as [|op ops IH]; intros m; simpl; [reflexivity|].
  unfold run_ops in *. simpl. rewrite IH. apply run_op_dict_at.
Qed.

Lemma run_op_respects op m :
  load_filtered (dict_at m) op -> respects_predicates m ->
  respects_predicates (snd (run_op op m)).
Proof.
  intros Hop [Hp Hl]. unfold respects_predicates.
  destruct op; simpl in *; unfold_cache.
  - destruct (by_alarm_id _ _ _) eqn:E; simpl; [|auto].
    split; [|assumption].
    apply (by_alarm_id_values (fun a => is_power_issue (dict_at m a) = true)
             (dict_at m) alarms [] a); [assumption | exact (List.Forall_nil _) | assumption].
  - destruct (by_alarm_id _ _ _) eqn:E; simpl; [|auto].
    split; [assumption|].
    apply (by_alarm_id_values (fun a => is_los_alarm (dict_at m a) = true)
             (dict_at m) alarms [] a); [assumption | exact (List.Forall_nil _) | assumption].
  - auto.
  - auto.
  - destruct (py_getitem _ _); simpl; [|auto].
    destruct (is_power_issue (dict_at m alarm)) eqn:Ep;
      destruct (is_los_alarm (dict_at m alarm)) eqn:El; simpl;
      destruct (hash_key a); simpl; auto;
      split; auto; apply dict_values_set; auto.
  - destruct (pop_default _ (active_power_issues _)) as [d1|] eqn:E1; simpl;
      [|auto].
    apply pop_default_is_pop in E1. destruct E1 as [k1 ->].
    destruct (pop_default _ (active_los_alarms _)) as [d2|] eqn:E2; simpl.
    + apply pop_default_is_pop in E2. destruct E2 as [k2 ->].
      split; apply dict_values_pop; assumption.
    + split; [apply dict_values_pop|]; assumption.
Qed.

Lemma run_ops_respects ops m :
  Forall (load_filtered (dict_at m)) ops -> respects_predicates m ->
  respects_predicates (run_ops ops m).
Proof.
  revert m. induction ops as [|op ops IH]; intros m Hops Hm; [exact Hm|].
  inversion Hops; subst. unfold run_ops in *. simpl.
  apply IH.
  - rewrite run_op_dict_at. assumption.
  - apply run_op_respects; assumption.
Qed.

(** C4, as amended: after [__init__] and any sequence of cache calls in
    which each loader is given alarms of its own category only, every alarm
    dict held in the power-issue mapping satisfies the power-issue predicate
    and every alarm dict held in the loss-of-signal mapping satisfies the
    loss-of-signal predicate. *)
Theorem cache_respects_predicates (m : memory) (ops : list cache_op) :
  Forall (load_filtered (dict_at m)) ops ->
  respects_predicates (run_ops ops (snd (AlarmCache_init m))).
Proof.
  intros Hops. apply run_ops_respects; [exact Hops|].
  split; exact (List.Forall_nil _).
Qed.

Lemma cache_respects_predicates_witness :
  Forall (load_filtered (dict_at sample_memory))
         [Load_power_issues [0%nat]; Load_los_alarms [1%nat];
          Add_or_update 2%nat; Add_or_update 0%nat; Get_power_issues;
          Remove (VStr "A2")]
  /\ respects_predicates
       (run_ops [Load_power_issues [0%nat]; Load_los_alarms [1%nat];
                 Add_or_update 2%nat; Add_or_update 0%nat; Get_power_issues;
                 Remove (VStr "A2")]
                (snd (AlarmCache_init sample_memory))).
Proof.
  assert (H : Forall (load_filtered (dict_at sample_memory))
                [Load_power_issues [0%nat]; Load_los_alarms [1%nat];
                 Add_or_update 2%nat; Add_or_update 0%nat; Get_power_issues;
                 Remove (VStr "A2")]).
  { repeat (apply List.Forall_cons || apply List.Forall_nil
            || exact I || reflexivity). }
  split; [exact H | exact (cache_respects_predicates sample_memory _ H)].
Defined.

(** C4, as stated, fails: a loader stores whatever it is given.  Loading
    the "Link Down" alarm into the power-issue mapping leaves it there. *)
Lemma load_stores_any_alarm :
  ~ (forall (m : memory) (ops : list cache_op),
       respects_predicates (run_ops ops (snd (AlarmCache_init m)))).
Proof.
  intros H.
  destruct (H sample_memory [Load_power_issues [2%nat]]) as [Hp _].
  vm_compute in Hp. inversion Hp as [|? ? Hx _]. discriminate Hx.
Qed.

(** C9: [add_or_update] removes nothing.  A category whose predicate the
    alarm does not satisfy keeps its mapping as it was, so an entry cached
    under the same alarm_id stays although the alarm no longer matches; and
    in both categories every key present before the call is present after
    it. *)
Theorem add_or_update_never_removes (alarm : loc) (m : memory) :
  let m' := snd (add_or_update alarm m) in
  (is_power_issue (dict_at m alarm) = false ->
   active_power_issues (alarm_cache m') = active_power_issues (alarm_cache m))
  /\ (is_los_alarm (dict_at m alarm) = false ->
      active_los_alarms (alarm_cache m') = active_los_alarms (alarm_cache m))
  /\ (forall k,
        is_Some (dict_get pykey_eqb k (active_power_issues (alarm_cache m))) ->
        is_Some (dict_get pykey_eqb k (active_power_issues (alarm_cache m'))))
  /\ (forall k,
        is_Some (dict_get pykey_eqb k (active_los_alarms (alarm_cache m))) ->
        is_Some (dict_get pykey_eqb k (active_los_alarms (alarm_cache m')))).
Proof.
  unfold_cache.
  destruct (py_getitem _ _) as [alarm_id|]; simpl; [|tauto].
  destruct (is_power_issue _), (is_los_alarm _), (hash_key alarm_id);
    simpl; repeat split; try tauto; try discriminate;
    intros k Hk; apply dict_get_set_is_Some; exact Hk.
Qed.

(** The alarm A1 is cached as a power issue; an update of A1 that is no
    longer a power issue leaves the cached entry where it is. *)
Lemma add_or_update_never_removes_witness :
  is_power_issue (dict_at sample_loaded 3%nat) = false
  /\ dict_get pykey_eqb (KStr "A1")
       (active_power_issues (alarm_cache (snd (add_or_update 3%nat sample_loaded))))
     = Some 0%nat.
Proof.
  split; [reflexivity|].
  destruct (add_or_update_never_removes 3%nat sample_loaded) as [H _].
  rewrite (H eq_refl). reflexivity.
Defined.

(** C10: [add_or_update] needs the key alarm_id and no other.  Without it
    the call raises [KeyError] and the cache is as before.  With it the call
    never raises [KeyError]: a missing alarm_name is no match at all and the
    call returns with the cache as before; a missing object_type leaves the
    power-issue mapping as it was and a missing severity the loss-of-signal
    mapping. *)
Theorem add_or_update_requires_alarm_id (alarm : loc) (m : memory) :
  (dict_get String.eqb "alarm_id" (dict_at m alarm) = None ->
   add_or_update alarm m = (Raise KeyError, m))
  /\ (is_Some (dict_get String.eqb "alarm_id" (dict_at m alarm)) ->
      fst (add_or_update alarm m) <> Raise KeyError
      /\ (dict_get String.eqb "alarm_name" (dict_at m alarm) = None ->
          add_or_update alarm m = (Ok tt, m))
      /\ (dict_get String.eqb "object_type" (dict_at m alarm) = None ->
          active_power_issues (alarm_cache (snd (add_or_update alarm m)))
          = active_power_issues (alarm_cache m))
      /\ (dict_get String.eqb "severity" (dict_at m alarm) = None ->
          active_los_alarms (alarm_cache (snd (add_or_update alarm m)))
          = active_los_alarms (alarm_cache m))).
Proof.
  split.
  - intros H. unfold add_or_update, py_getitem, bind, gets, lift; simpl.
    rewrite H. reflexivity.
  - intros [alarm_id H].
    assert (Hname : dict_get String.eqb "alarm_name" (dict_at m alarm) = None ->
                    is_power_issue (dict_at m alarm) = false
                    /\ is_los_alarm (dict_at m alarm) = false).
    { intros E. unfold is_power_issue, is_los_alarm, py_get. rewrite E. auto. }
    assert (Hobj : dict_get String.eqb "object_type" (dict_at m alarm) = None ->
                   is_power_issue (dict_at m alarm) = false).
    { intros E. unfold is_power_issue, py_get. rewrite E.
      apply andb_false_r. }
    assert (Hsev : dict_get String.eqb "severity" (dict_at m alarm) = None ->
                   is_los_alarm (dict_at m alarm) = false).
    { intros E. unfold is_los_alarm, py_get. rewrite E. apply andb_false_r. }
    unfold add_or_update, py_getitem, bind, gets, lift, ret, modify; simpl.
    rewrite H.
    repeat split.
    + destruct (is_power_issue _), (is_los_alarm _), alarm_id;
        simpl; discriminate.
    + intros E. destruct (Hname E) as [-> ->]. reflexivity.
    + intros E. rewrite (Hobj E).
      destruct (is_los_alarm _), (hash_key alarm_id); reflexivity.
    + intros E. rewrite (Hsev E).
      destruct (is_power_issue _), (hash_key alarm_id); reflexivity.
Qed.

Lemma add_or_update_requires_alarm_id_witness :
  (dict_get String.eqb "alarm_id" (dict_at sample_memory 4%nat) = None
   /\ add_or_update 4%nat sample_memory = (Raise KeyError, sample_memory))
  /\ (is_Some (dict_get String.eqb "alarm_id" (dict_at sample_memory 2%nat))
      /\ fst (add_or_update 2%nat sample_memory) <> Raise KeyError).
Proof.
  split.
  - split; [reflexivity|].
    apply (add_or_update_requires_alarm_id 4%nat sample_memory). reflexivity.
  - assert (H : is_Some (dict_get String.eqb "alarm_id"
                           (dict_at sample_memory 2%nat))).
    { exists (VStr "A3"). reflexivity. }
    split; [exact H|].
    apply (add_or_update_requires_alarm_id 2%nat sample_memory). exact H.
Defined.

(** *** Eviction *)

Lemma pykey_eqb_eq (a b : pykey) : pykey_eqb a b = true <-> a = b.
Proof.
  destruct a, b; simpl; split; intros H; try discriminate; try reflexivity.
  - apply Z.eqb_eq in H. congruence.
  - injection H as ->. apply Z.eqb_refl.
  - apply String.eqb_eq in H. congruence.
  - injection H as ->. apply String.eqb_refl.
Qed.

Lemma dict_get_not_key {V} k (d : pydict pykey V) :
  ~ In k (dict_keys d) -> dict_get pykey_eqb k d = None.
Proof.
  unfold dict_keys.
  induction d as [|[k' v] d IH]; simpl; intros H; [reflexivity|].
  destruct (pykey_eqb k k') eqn:E.
  - apply pykey_eqb_eq in E. subst. tauto.
  - apply IH. tauto.
Qed.

Lemma dict_pop_keys {V} k k0 (d : pydict pykey V) :
  In k0 (dict_keys (dict_pop pykey_eqb k d)) -> In k0 (dict_keys d).
Proof.
  unfold dict_keys.
  induction d as [|[k' v] d IH]; simpl; [tauto|].
  destruct (pykey_eqb k k'); simpl; tauto.
Qed.

(** In a dict, which has one entry per key, a popped key is gone. *)
Lemma dict_get_pop {V} k (d : pydict pykey V) :
  List.NoDup (dict_keys d) -> dict_get pykey_eqb k (dict_pop pykey_eqb k d) = None.
Proof.
  unfold dict_keys.
  induction d as [|[k' v] d IH]; simpl; intros H; [reflexivity|].
  inversion H as [|? ? Hnin Hnd]; subst.
  destruct (pykey_eqb k k') eqn:E; simpl.
  - apply pykey_eqb_eq in E. subst. apply dict_get_not_key. exact Hnin.
  - rewrite E. apply IH. exact Hnd.
Qed.

Lemma dict_set_keys {V} k v k0 (d : pydict pykey V) :
  In k0 (dict_keys (dict_set pykey_eqb k v d)) -> k0 = k \/ In k0 (dict_keys d).
Proof.
  unfold dict_keys.
  induction d as [|[k' v'] d IH]; simpl.
  - intros [H|[]]. left. symmetry. exact H.
  - destruct (pykey_eqb k k'); simpl; tauto.
Qed.

Lemma dict_set_NoDup {V} k v (d : pydict pykey V) :
  List.NoDup (dict_keys d) -> List.NoDup (dict_keys (dict_set pykey_eqb k v d)).
Proof.
  induction d as [|[k' v'] d IH]; simpl; intros H.
  - constructor; [intros [] | constructor].
  - inversion H as [|? ? Hnin Hnd]; subst.
    destruct (pykey_eqb k k') eqn:E; simpl; [exact H|].
    constructor; [|apply IH; exact Hnd].
    intros Hin. apply dict_set_keys in Hin. destruct Hin as [->|Hin].
    + assert (pykey_eqb k k = true) by (apply pykey_eqb_eq; reflexivity).
      congruence.
    + exact (Hnin Hin).
Qed.

Lemma dict_pop_NoDup {V} k (d : pydict pykey V) :
  List.NoDup (dict_keys d) -> List.NoDup (dict_keys (dict_pop pykey_eqb k d)).
Proof.
  induction d as [|[k' v'] d IH]; simpl; intros H; [exact H|].
  inversion H as [|? ? Hnin Hnd]; subst.
  destruct (pykey_eqb k k'); simpl; [exact Hnd|].
  constructor; [|apply IH; exact Hnd].
  intros Hin. apply Hnin. eapply dict_pop_keys. exact Hin.
Qed.

Lemma by_alarm_id_NoDup h alarms acc d :
  List.NoDup (dict_keys acc) -> by_alarm_id h alarms acc = Ok d ->
  List.NoDup (dict_keys d).
Proof.
  revert acc. induction alarms as [|a rest IH]; simpl; intros acc Hacc Hd.
  - congruence.
  - destruct (py_getitem "alarm_id" (h a)) as [alarm_id|]; [|discriminate].
    destruct (hash_key alarm_id) as [k|]; [|discriminate].
    apply (IH (dict_set pykey_eqb k a acc)); [|exact Hd].
    apply dict_set_NoDup. exact Hacc.
Qed.

Lemma run_ops_keys_unique (ops : list cache_op) (m : memory) :
  List.NoDup (dict_keys (active_power_issues (alarm_cache m)))
  /\ List.NoDup (dict_keys (active_los_alarms (alarm_cache m))) ->
  List.NoDup (dict_keys (active_power_issues (alarm_cache (run_ops ops m))))
  /\ List.NoDup (dict_keys (active_los_alarms (alarm_cache (run_ops ops m)))).
Proof.
  revert m. induction ops as [|op ops IH]; intros m H; [exact H|].
  unfold run_ops in *. simpl. apply IH. clear IH.
  destruct H as [Hp Hl].
  destruct op; simpl; unfold_cache.
  - destruct (by_alarm_id _ _ _) eqn:E; simpl; [|auto].
    split; [|exact Hl]. eapply by_alarm_id_NoDup; [|exact E]. constructor.
  - destruct (by_alarm_id _ _ _) eqn:E; simpl; [|auto].
    split; [exact Hp|]. eapply by_alarm_id_NoDup; [|exact E]. constructor.
  - auto.
  - auto.
  - destruct (py_getitem _ _) as [alarm_id|]; simpl; [|auto].
    destruct (is_power_issue _), (is_los_alarm _), (hash_key alarm_id);
      simpl; auto using dict_set_NoDup.
  - destruct (pop_default _ (active_power_issues _)) as [d1|] eqn:E1; simpl;
      [|auto].
    apply pop_default_is_pop in E1. destruct E1 as [k1 ->].
    destruct (pop_default _ (active_los_alarms _)) as [d2|] eqn:E2; simpl.
    + apply pop_default_is_pop in E2. destruct E2 as [k2 ->].
      auto using dict_pop_NoDup.
    + auto using dict_pop_NoDup.
Qed.

(** Both mappings of the instance have one entry per alarm_id. *)
Lemma cache_keys_unique (m : memory) (ops : list cache_op) :
  let c := alarm_cache (run_ops ops (snd (AlarmCache_init m))) in
  List.NoDup (dict_keys (active_power_issues c))
  /\ List.NoDup (dict_keys (active_los_alarms c)).
Proof. apply run_ops_keys_unique. split; constructor. Qed.

(** [remove] takes the alarm_id out of both mappings, so a stale entry
    stays exactly until its alarm_id is evicted. *)
Lemma remove_evicts (m : memory) (ops : list cache_op) (alarm_id : pyval) k :
  hash_key alarm_id = Ok k ->
  let m' := snd (remove alarm_id (run_ops ops (snd (AlarmCache_init m)))) in
  dict_get pykey_eqb k (active_power_issues (alarm_cache m')) = None
  /\ dict_get pykey_eqb k (active_los_alarms (alarm_cache m')) = None.
Proof.
  intros Hk. destruct (cache_keys_unique m ops) as [Hp Hl]. simpl in *.
  rewrite remove_run, !(pop_default_hashable _ _ _ Hk). simpl.
  split; apply dict_get_pop; assumption.
Qed.

(** *** Readers *)

Lemma fun_upd_same {A} (f : loc -> A) l a : fun_upd f l a l = a.
Proof. unfold fun_upd. rewrite Nat.eqb_refl. reflexivity. Qed.

Lemma fun_upd_below {A} (f : loc -> A) l l' a :
  (l' < l)%nat -> fun_upd f l a l' = f l'.
Proof.
  intros H. unfold fun_upd.
  destruct (Nat.eqb_spec l' l); [lia | reflexivity].
Qed.

(** A cache call allocates upwards and writes to no list that exists. *)
Lemma run_op_lists op m :
  (next_list m <= next_list (snd (run_op op m)))%nat
  /\ (forall l, (l < next_list m)%nat ->
                list_at (snd (run_op op m)) l = list_at m l).
Proof.
  destruct op; simpl; unfold_cache.
  - destruct (by_alarm_id _ _ _); simpl; auto.
  - destruct (by_alarm_id _ _ _); simpl; auto.
  - split; [lia | intros l Hl; apply fun_upd_below; exact Hl].
  - split; [lia | intros l Hl; apply fun_upd_below; exact Hl].
  - destruct (py_getitem _ _) as [alarm_id|]; simpl; [|auto].
    destruct (is_power_issue _), (is_los_alarm _), (hash_key alarm_id);
      simpl; auto.
  - destruct (pop_default _ _); [destruct (pop_default _ _)|]; simpl; auto.
Qed.

Lemma run_ops_list_at ops m l :
  (l < next_list m)%nat -> list_at (run_ops ops m) l = list_at m l.
Proof.
  revert m. induction ops as [|op ops IH]; intros m Hl; [reflexivity|].
  destruct (run_op_lists op m) as [Hn Hk].
  unfold run_ops in *. simpl. rewrite IH; [apply Hk; exact Hl | lia].
Qed.

Lemma get_power_issues_shallow m :
  shallow_copy get_power_issues snapshot_power active_power_issues m.
Proof.
  unfold shallow_copy. split; [reflexivity|].
  split; [unfold_cache; apply fun_upd_same|].
  split; [|split].
  - intros ops.
    assert (H : list_at (run_ops ops (snd (get_power_issues m))) (next_list m)
                = list_at (snd (get_power_issues m)) (next_list m)).
    { apply run_ops_list_at. unfold_cache. lia. }
    split; [exact H|]. unfold view. rewrite H, run_ops_dict_at. reflexivity.
  - intros l' items. unfold snapshot_power, view. unfold_cache.
    rewrite !fun_upd_same. reflexivity.
  - intros a r. unfold snapshot_power, view. unfold_cache.
    rewrite !fun_upd_same. reflexivity.
Qed.

Lemma get_los_alarms_shallow m :
  shallow_copy get_los_alarms snapshot_los active_los_alarms m.
Proof.
  unfold shallow_copy. split; [reflexivity|].
  split; [unfold_cache; apply fun_upd_same|].
  split; [|split].
  - intros ops.
    assert (H : list_at (run_ops ops (snd (get_los_alarms m))) (next_list m)
                = list_at (snd (get_los_alarms m)) (next_list m)).
    { apply run_ops_list_at. unfold_cache. lia. }
    split; [exact H|]. unfold view. rewrite H, run_ops_dict_at. reflexivity.
  - intros l' items. unfold snapshot_los, view. unfold_cache.
    rewrite !fun_upd_same. reflexivity.
  - intros a r. unfold snapshot_los, view. unfold_cache.
    rewrite !fun_upd_same. reflexivity.
Qed.

(** C1, as amended: [get_power_issues] and [get_los_alarms] return a
    shallow copy.  The list returned is a new object that holds the alarm
    dicts of the category; no later cache call (load, add_or_update, remove,
    or another read) changes that list or the fields of the alarm dicts in
    it, and rearranging a returned list changes no later snapshot.  The
    alarm dicts themselves are the ones the cache holds: after a caller
    assigns to one of them, the next snapshot shows it with its new
    fields. *)
Theorem snapshot_is_shallow_copy (m : memory) :
  shallow_copy get_power_issues snapshot_power active_power_issues m
  /\ shallow_copy get_los_alarms snapshot_los active_los_alarms m.
Proof. split; [apply get_power_issues_shallow | apply get_los_alarms_shallow]. Qed.

(** C1, as stated, fails: the alarm dicts in a returned list are the cache's
    own.  With the power issue A1 cached, emptying the dict found in a
    snapshot empties it in the next snapshot too. *)
Lemma snapshot_shares_alarm_dicts :
  ~ (forall (m : memory) (a : loc) (r : record),
       In a (list_at (snd (get_power_issues m)) (next_list m)) ->
       snapshot_power (mutate_dict a r (snd (get_power_issues m)))
       = snapshot_power (snd (get_power_issues m))).
Proof.
  intros H.
  specialize (H sample_loaded 0%nat []).
  vm_compute in H. specialize (H (or_introl eq_refl)). discriminate H.
Qed.

(* ===================================================================== *)
(** ** The cache as a keyed store *)
(* ===================================================================== *)

Lemma pykey_eqb_refl (k : pykey) : pykey_eqb k k = true.
Proof. apply pykey_eqb_eq. reflexivity. Qed.

Lemma pykey_eqb_trans_false (k k' k0 : pykey) :
  pykey_eqb k k0 = false -> pykey_eqb k' k0 = true -> pykey_eqb k' k = false.
Proof.
  intros H1 H2. apply pykey_eqb_eq in H2. subst k0.
  destruct (pykey_eqb k' k) eqn:E; [|reflexivity].
  apply pykey_eqb_eq in E. subst k'. rewrite pykey_eqb_refl in H1.
  discriminate H1.
Qed.

(** Lookup after assignment. *)
Lemma dict_get_set {V} (k k' : pykey) (v : V) (d : pydict pykey V) :
  dict_get pykey_eqb k' (dict_set pykey_eqb k v d)
  = if pykey_eqb k' k then Some v else dict_get pykey_eqb k' d.
Proof.
  induction d as [|[k0 v0] d IH]; simpl; [reflexivity|].
  destruct (pykey_eqb k k0) eqn:E; simpl.
  - apply pykey_eqb_eq in E. subst k0.
    destruct (pykey_eqb k' k); reflexivity.
  - destruct (pykey_eqb k' k0) eqn:E0.
    + rewrite (pykey_eqb_trans_false _ _ _ E E0). reflexivity.
    + exact IH.
Qed.

(** Lookup after a pop, in a dict with one entry per key. *)
Lemma dict_get_pop_any {V} (k k' : pykey) (d : pydict pykey V) :
  List.NoDup (dict_keys d) ->
  dict_get pykey_eqb k' (dict_pop pykey_eqb k d)
  = if pykey_eqb k' k then None else dict_get pykey_eqb k' d.
Proof.
  unfold dict_keys.
  induction d as [|[k0 v0] d IH]; simpl; intros H.
  - destruct (pykey_eqb k' k); reflexivity.
  - inversion H as [|? ? Hnin Hnd]; subst.
    destruct (pykey_eqb k k0) eqn:E; simpl.
    + apply pykey_eqb_eq in E. subst k0.
      destruct (pykey_eqb k' k) eqn:E'; [|reflexivity].
      apply pykey_eqb_eq in E'. subst k'.
      apply dict_get_not_key. exact Hnin.
    + destruct (pykey_eqb k' k0) eqn:E0.
      * rewrite (pykey_eqb_trans_false _ _ _ E E0). reflexivity.
      * apply IH. exact Hnd.
Qed.

Lemma dict_pop_absent {V} (k : pykey) (d : pydict pykey V) :
  dict_get pykey_eqb k d = None -> dict_pop pykey_eqb k d = d.
Proof.
  induction d as [|[k0 v0] d IH]; simpl; intros H; [reflexivity|].
  destruct (pykey_eqb k k0); [discriminate H|].
  rewrite (IH H). reflexivity.
Qed.

Lemma dict_set_twice {K V} (eqb : K -> K -> bool) (k : K) (v : V)
    (d : pydict K V) :
  eqb k k = true ->
  dict_set eqb k v (dict_set eqb k v d) = dict_set eqb k v d.
Proof.
  intros Hr. induction d as [|[k0 v0] d IH]; simpl.
  - rewrite Hr. reflexivity.
  - destruct (eqb k k0) eqn:E; simpl; rewrite E; [reflexivity|].
    rewrite IH. reflexivity.
Qed.

(** An assignment to a key the dict has keeps every key where it is; an
    assignment to a key it lacks appends the entry. *)
Lemma dict_set_present {V} (k : pykey) (v : V) (d : pydict pykey V) :
  is_Some (dict_get pykey_eqb k d) ->
  dict_keys (dict_set pykey_eqb k v d) = dict_keys d
  /\ length (dict_set pykey_eqb k v d) = length d.
Proof.
  unfold dict_keys.
  induction d as [|[k0 v0] d IH]; simpl; intros H.
  - destruct H as [? H]. discriminate H.
  - destruct (pykey_eqb k k0); simpl; [split; reflexivity|].
    destruct (IH H) as [-> ->]. split; reflexivity.
Qed.

Lemma dict_set_absent {V} (k : pykey) (v : V) (d : pydict pykey V) :
  dict_get pykey_eqb k d = None -> dict_set pykey_eqb k v d = d ++ [(k, v)].
Proof.
  induction d as [|[k0 v0] d IH]; simpl; intros H; [reflexivity|].
  destruct (pykey_eqb k k0); [discriminate H|].
  rewrite (IH H). reflexivity.
Qed.

Lemma memory_eta (m : memory) :
  mkMemory (dict_at m) (list_at m) (next_list m)
           (mkAlarmCache (active_power_issues (alarm_cache m))
                         (active_los_alarms (alarm_cache m))) = m.
Proof. destruct m as [? ? ? []]. reflexivity. Qed.

(** The two categories exclude each other: no alarm_name equals both
    names. *)
Lemma categories_exclusive (a : record) :
  is_power_issue a = true -> is_los_alarm a = false.
Proof.
  unfold is_power_issue, is_los_alarm.
  destruct (py_get "alarm_name" a) as [| | |s| |]; simpl; try discriminate.
  intros H. apply andb_true_iff in H. destruct H as [H _].
  apply String.eqb_eq in H. subst s. reflexivity.
Qed.

(** What [add_or_update] does, case by case. *)
Lemma add_or_update_run (alarm : loc) (m : memory) :
  add_or_update alarm m
  = match dict_get String.eqb "alarm_id" (dict_at m alarm) with
    | None => (Raise KeyError, m)
    | Some alarm_id =>
        if is_power_issue (dict_at m alarm) then
          match hash_key alarm_id with
          | Ok k =>
              (Ok tt,
               set_power_issues
                 (dict_set pykey_eqb k alarm (active_power_issues (alarm_cache m)))
                 m)
          | Raise e => (Raise e, m)
          end
        else if is_los_alarm (dict_at m alarm) then
          match hash_key alarm_id with
          | Ok k =>
              (Ok tt,
               set_los_alarms
                 (dict_set pykey_eqb k alarm (active_los_alarms (alarm_cache m)))
                 m)
          | Raise e => (Raise e, m)
          end
        else (Ok tt, m)
    end.
Proof.
  unfold add_or_update, py_getitem, bind, gets, lift, ret, modify. simpl.
  destruct (dict_get String.eqb "alarm_id" (dict_at m alarm)) as [alarm_id|];
    simpl; [|reflexivity].
  destruct (is_power_issue (dict_at m alarm)) eqn:Ep.
  - rewrite (categories_exclusive _ Ep).
    destruct (hash_key alarm_id); reflexivity.
  - destruct (is_los_alarm (dict_at m alarm));
      destruct (hash_key alarm_id); reflexivity.
Qed.

(** X1.  [add_or_update] of an alarm with a hashable alarm_id returns, and
    in the category the alarm belongs to it makes the alarm_id map to this
    very alarm dict and leaves every other alarm_id as it was. *)
Theorem add_or_update_sets_key (alarm : loc) (m : memory)
    (alarm_id : pyval) (k : pykey) :
  dict_get String.eqb "alarm_id" (dict_at m alarm) = Some alarm_id ->
  hash_key alarm_id = Ok k ->
  fst (add_or_update alarm m) = Ok tt
  /\ (is_power_issue (dict_at m alarm) = true ->
      forall k',
        dict_get pykey_eqb k'
          (active_power_issues (alarm_cache (snd (add_or_update alarm m))))
        = if pykey_eqb k' k then Some alarm
          else dict_get pykey_eqb k' (active_power_issues (alarm_cache m)))
  /\ (is_los_alarm (dict_at m alarm) = true ->
      forall k',
        dict_get pykey_eqb k'
          (active_los_alarms (alarm_cache (snd (add_or_update alarm m))))
        = if pykey_eqb k' k then Some alarm
          else dict_get pykey_eqb k' (active_los_alarms (alarm_cache m))).
Proof.
  intros Hid Hk. rewrite add_or_update_run, Hid, Hk.
  destruct (is_power_issue (dict_at m alarm)) eqn:Ep;
    [rewrite (categories_exclusive _ Ep)|
     destruct (is_los_alarm (dict_at m alarm)) eqn:El];
    simpl; repeat split; try discriminate;
    intros _ k'; apply dict_get_set.
Qed.

Lemma add_or_update_sets_key_witness :
  fst (add_or_update 0%nat sample_memory) = Ok tt
  /\ dict_get pykey_eqb (KStr "A1")
       (active_power_issues (alarm_cache (snd (add_or_update 0%nat sample_memory))))
     = Some 0%nat.
Proof.
  destruct (add_or_update_sets_key 0%nat sample_memory (VStr "A1") (KStr "A1")
              eq_refl eq_refl) as [H1 [H2 _]].
  split; [exact H1 | exact (H2 eq_refl (KStr "A1"))].
Defined.

Lemma add_or_update_twice (alarm : loc) (m : memory) :
  snd (add_or_update alarm (snd (add_or_update alarm m)))
  = snd (add_or_update alarm m).
Proof.
  rewrite (add_or_update_run alarm m).
  destruct (dict_get String.eqb "alarm_id" (dict_at m alarm)) as [alarm_id|]
    eqn:Hid; simpl.
  2:{ rewrite add_or_update_run, Hid. reflexivity. }
  destruct (is_power_issue (dict_at m alarm)) eqn:Ep;
    [|destruct (is_los_alarm (dict_at m alarm)) eqn:El];
    destruct (hash_key alarm_id) as [k|] eqn:Hk; simpl;
    rewrite add_or_update_run; simpl; rewrite Hid, Ep, ?El, ?Hk; simpl;
    try reflexivity.
  - unfold set_power_issues, set_cache. simpl.
    rewrite dict_set_twice by apply pykey_eqb_refl. reflexivity.
  - unfold set_los_alarms, set_cache. simpl.
    rewrite dict_set_twice by apply pykey_eqb_refl. reflexivity.
Qed.

(** X2.  [add_or_update] is idempotent: a second call with the same alarm
    dict leaves the memory the first call left. *)
Theorem add_or_update_idempotent (alarm : loc) (m : memory) :
  snd (add_or_update alarm (snd (add_or_update alarm m)))
  = snd (add_or_update alarm m).
Proof. apply add_or_update_twice. Qed.

(** X3.  [add_or_update] never writes to both categories: one of the two
    mappings is always as it was. *)
Theorem add_or_update_one_category (alarm : loc) (m : memory) :
  active_power_issues (alarm_cache (snd (add_or_update alarm m)))
  = active_power_issues (alarm_cache m)
  \/ active_los_alarms (alarm_cache (snd (add_or_update alarm m)))
     = active_los_alarms (alarm_cache m).
Proof.
  rewrite add_or_update_run.
  destruct (dict_get String.eqb "alarm_id" (dict_at m alarm)) as [alarm_id|];
    [|left; reflexivity].
  destruct (is_power_issue (dict_at m alarm));
    [|destruct (is_los_alarm (dict_at m alarm))];
    destruct (hash_key alarm_id); simpl; auto.
Qed.

(** X4.  In the category it belongs to, an alarm whose alarm_id is cached
    replaces the cached alarm dict where it stands, so the order and the
    size of the snapshot stay; an alarm whose alarm_id is new goes to the
    end. *)
Theorem add_or_update_keeps_order (alarm : loc) (m : memory)
    (alarm_id : pyval) (k : pykey) :
  dict_get String.eqb "alarm_id" (dict_at m alarm) = Some alarm_id ->
  hash_key alarm_id = Ok k ->
  is_power_issue (dict_at m alarm) = true ->
  let before := active_power_issues (alarm_cache m) in
  let after := active_power_issues (alarm_cache (snd (add_or_update alarm m))) in
  match dict_get pykey_eqb k before with
  | Some _ => dict_keys after = dict_keys before /\ length after = length before
  | None => after = before ++ [(k, alarm)]
  end.
Proof.
  intros Hid Hk Hp. rewrite add_or_update_run, Hid, Hp, Hk. simpl.
  destruct (dict_get pykey_eqb k (active_power_issues (alarm_cache m))) eqn:E.
  - apply dict_set_present. rewrite E. eauto.
  - apply dict_set_absent. exact E.
Qed.

Lemma add_or_update_keeps_order_witness :
  dict_keys (active_power_issues
               (alarm_cache (snd (add_or_update 0%nat sample_loaded))))
  = [KStr "A1"]
  /\ active_power_issues (alarm_cache (snd (add_or_update 0%nat sample_memory)))
     = [] ++ [(KStr "A1", 0%nat)].
Proof.
  split.
  - exact (proj1 (add_or_update_keeps_order 0%nat sample_loaded (VStr "A1")
                    (KStr "A1") eq_refl eq_refl eq_refl)).
  - exact (add_or_update_keeps_order 0%nat sample_memory (VStr "A1")
             (KStr "A1") eq_refl eq_refl eq_refl).
Defined.

(** X5.  On a cache built by [__init__] and any calls, [remove] of a
    hashable alarm_id returns and deletes exactly that alarm_id: afterwards
    it is in neither category, and every other alarm_id maps to what it
    mapped to. *)
Theorem remove_deletes_exactly (m : memory) (ops : list cache_op)
    (alarm_id : pyval) (k : pykey) :
  hash_key alarm_id = Ok k ->
  let m0 := run_ops ops (snd (AlarmCache_init m)) in
  fst (remove alarm_id m0) = Ok tt
  /\ (forall k',
        dict_get pykey_eqb k'
          (active_power_issues (alarm_cache (snd (remove alarm_id m0))))
        = if pykey_eqb k' k then None
          else dict_get pykey_eqb k' (active_power_issues (alarm_cache m0)))
  /\ (forall k',
        dict_get pykey_eqb k'
          (active_los_alarms (alarm_cache (snd (remove alarm_id m0))))
        = if pykey_eqb k' k then None
          else dict_get pykey_eqb k' (active_los_alarms (alarm_cache m0))).
Proof.
  intros Hk. destruct (cache_keys_unique m ops) as [Hp Hl]. simpl in *.
  rewrite remove_run, !(pop_default_hashable _ _ _ Hk). simpl.
  split; [reflexivity|].
  split; intros k'; apply dict_get_pop_any; assumption.
Qed.

Lemma remove_deletes_exactly_witness :
  fst (remove (VStr "A1")
         (run_ops [Add_or_update 0%nat; Add_or_update 1%nat]
                  (snd (AlarmCache_init sample_memory)))) = Ok tt
  /\ dict_get pykey_eqb (KStr "A1")
       (active_power_issues
          (alarm_cache
             (snd (remove (VStr "A1")
                     (run_ops [Add_or_update 0%nat; Add_or_update 1%nat]
                              (snd (AlarmCache_init sample_memory)))))))
     = None.
Proof.
  destruct (remove_deletes_exactly sample_memory
              [Add_or_update 0%nat; Add_or_update 1%nat]
              (VStr "A1") (KStr "A1") eq_refl) as [H1 [H2 _]].
  split; [exact H1 | exact (H2 (KStr "A1"))].
Defined.

(** X6.  [remove] of an alarm_id that is in neither category changes
    nothing. *)
Theorem remove_absent_is_noop (alarm_id : pyval) (k : pykey) (m : memory) :
  hash_key alarm_id = Ok k ->
  dict_get pykey_eqb k (active_power_issues (alarm_cache m)) = None ->
  dict_get pykey_eqb k (active_los_alarms (alarm_cache m)) = None ->
  remove alarm_id m = (Ok tt, m).
Proof.
  intros Hk Hp Hl.
  rewrite remove_run, !(pop_default_hashable _ _ _ Hk).
  unfold set_power_issues, set_los_alarms, set_cache. simpl.
  rewrite (dict_pop_absent _ _ Hp), (dict_pop_absent _ _ Hl), memory_eta.
  reflexivity.
Qed.

Lemma remove_absent_is_noop_witness :
  remove (VStr "A9") sample_loaded = (Ok tt, sample_loaded).
Proof.
  apply (remove_absent_is_noop (VStr "A9") (KStr "A9") sample_loaded);
    reflexivity.
Defined.

(** X7.  Every cache method is all or nothing: a call that raises (a
    missing alarm_id, an unhashable one) leaves the memory, both mappings
    included, exactly as it was. *)
Theorem cache_call_raises_unchanged (op : cache_op) (m : memory) (e : exn) :
  fst (run_op op m) = Raise e -> snd (run_op op m) = m.
Proof.
  destruct op; simpl.
  - unfold load_power_issues, bind, gets, lift, modify. simpl.
    destruct (by_alarm_id _ _ _); simpl; [discriminate | reflexivity].
  - unfold load_los_alarms, bind, gets, lift, modify. simpl.
    destruct (by_alarm_id _ _ _); simpl; [discriminate | reflexivity].
  - discriminate.
  - discriminate.
  - rewrite add_or_update_run.
    destruct (dict_get String.eqb "alarm_id" (dict_at m alarm)) as [alarm_id|];
      [|reflexivity].
    destruct (is_power_issue _); [|destruct (is_los_alarm _)];
      destruct (hash_key alarm_id); simpl; try discriminate; reflexivity.
  - rewrite remove_run.
    destruct (pop_default alarm_id (active_power_issues (alarm_cache m)))
      as [d1|] eqn:E1; [|reflexivity].
    destruct (pop_default alarm_id (active_los_alarms (alarm_cache m)))
      as [d2|] eqn:E2; simpl; [discriminate|].
    intros _. apply pop_default_raises in E2.
    destruct (pop_default_unhashable _ _ _ _ E2 E1) as [Hd ->].
    unfold set_power_issues, set_cache. rewrite <- Hd. apply memory_eta.
Qed.

Lemma cache_call_raises_unchanged_witness :
  fst (run_op (Remove (VList [])) sample_loaded) = Raise TypeError
  /\ snd (run_op (Remove (VList [])) sample_loaded) = sample_loaded.
Proof.
  split; [reflexivity|].
  apply (cache_call_raises_unchanged (Remove (VList [])) sample_loaded TypeError).
  reflexivity.
Defined.

(** An unhashable alarm_id gets past an empty mapping: on a cache that
    holds nothing, [remove] of a list returns and changes nothing; it raises
    as soon as the first mapping it pops from has an entry. *)
Example remove_unhashable_alarm_id :
  remove (VList []) (snd (AlarmCache_init sample_memory))
  = (Ok tt, snd (AlarmCache_init sample_memory))
  /\ fst (remove (VList []) sample_loaded) = Raise TypeError.
Proof. split; reflexivity. Qed.

Lemma find_snoc {A} (p : A -> bool) (l : list A) (a : A) :
  find p (l ++ [a])
  = match find p l with
    | Some x => Some x
    | None => if p a then Some a else None
    end.
Proof.
  induction l as [|x l IH]; simpl; [reflexivity|].
  destruct (p x); [reflexivity | exact IH].
Qed.

(** The dict a loader builds: under each key the last alarm filed there. *)
Lemma by_alarm_id_lookup h alarms acc d k :
  by_alarm_id h alarms acc = Ok d ->
  dict_get pykey_eqb k d
  = match last_with_key h k alarms with
    | Some a => Some a
    | None => dict_get pykey_eqb k acc
    end.
Proof.
  unfold last_with_key.
  revert acc. induction alarms as [|a rest IH]; simpl; intros acc Hd.
  - injection Hd as ->. reflexivity.
  - rewrite find_snoc. unfold key_of at 2.
    destruct (py_getitem "alarm_id" (h a)) as [alarm_id|]; [|discriminate].
    destruct (hash_key alarm_id) as [k0|]; [|discriminate].
    rewrite (IH _ Hd).
    destruct (find _ (rev rest)); [reflexivity|].
    rewrite dict_get_set. destruct (pykey_eqb k k0); reflexivity.
Qed.

Lemma by_alarm_id_ok h alarms acc :
  Forall (fun a => is_Some (key_of h a)) alarms ->
  exists d, by_alarm_id h alarms acc = Ok d.
Proof.
  revert acc. induction alarms as [|a rest IH]; simpl; intros acc H.
  - eauto.
  - inversion H as [|? ? Ha Hrest]; subst. unfold key_of in Ha.
    destruct (py_getitem "alarm_id" (h a)) as [alarm_id|];
      [|destruct Ha; discriminate].
    destruct (hash_key alarm_id) as [k0|]; [|destruct Ha; discriminate].
    apply IH. exact Hrest.
Qed.

(** X8.  A loader replaces its category.  Given alarms that all carry a
    hashable alarm_id it returns; whenever it returns, looking up an
    alarm_id in the loaded category gives the last alarm of the list that
    carries it and nothing for any other id, whatever the category held
    before, and the other category is as it was. *)
Theorem load_replaces_category (alarms : list loc) (m : memory) :
  (Forall (fun a => is_Some (key_of (dict_at m) a)) alarms ->
   fst (load_power_issues alarms m) = Ok tt
   /\ fst (load_los_alarms alarms m) = Ok tt)
  /\ (fst (load_power_issues alarms m) = Ok tt ->
      (forall k,
         dict_get pykey_eqb k
           (active_power_issues (alarm_cache (snd (load_power_issues alarms m))))
         = last_with_key (dict_at m) k alarms)
      /\ active_los_alarms (alarm_cache (snd (load_power_issues alarms m)))
         = active_los_alarms (alarm_cache m))
  /\ (fst (load_los_alarms alarms m) = Ok tt ->
      (forall k,
         dict_get pykey_eqb k
           (active_los_alarms (alarm_cache (snd (load_los_alarms alarms m))))
         = last_with_key (dict_at m) k alarms)
      /\ active_power_issues (alarm_cache (snd (load_los_alarms alarms m)))
         = active_power_issues (alarm_cache m)).
Proof.
  unfold load_power_issues, load_los_alarms, bind, gets, lift, modify,
    set_power_issues, set_los_alarms, set_cache. simpl.
  split; [|split].
  - intros H. destruct (by_alarm_id_ok (dict_at m) alarms [] H) as [d ->].
    split; reflexivity.
  - destruct (by_alarm_id (dict_at m) alarms []) as [d|] eqn:E; simpl;
      [|discriminate].
    intros _. split; [|reflexivity].
    intros k. rewrite (by_alarm_id_lookup _ _ _ _ k E).
    destruct (last_with_key _ _ _); reflexivity.
  - destruct (by_alarm_id (dict_at m) alarms []) as [d|] eqn:E; simpl;
      [|discriminate].
    intros _. split; [|reflexivity].
    intros k. rewrite (by_alarm_id_lookup _ _ _ _ k E).
    destruct (last_with_key _ _ _); reflexivity.
Qed.

(** Loading A1 twice, first as it was and then as it is now, over a cache
    that holds A1 and A2: A1 maps to the later dict, and nothing else is
    left in the category. *)
Lemma load_replaces_category_witness :
  fst (load_power_issues [0%nat; 3%nat] sample_loaded) = Ok tt
  /\ dict_get pykey_eqb (KStr "A1")
       (active_power_issues
          (alarm_cache (snd (load_power_issues [0%nat; 3%nat] sample_loaded))))
     = Some 3%nat
  /\ dict_get pykey_eqb (KStr "A2")
       (active_los_alarms
          (alarm_cache (snd (load_los_alarms [0%nat; 3%nat] sample_loaded))))
     = None.
Proof.
  destruct (load_replaces_category [0%nat; 3%nat] sample_loaded)
    as [H0 [Hp Hl]].
  assert (Hk : Forall (fun a => is_Some (key_of (dict_at sample_loaded) a))
                 [0%nat; 3%nat]).
  { apply List.Forall_cons; [eexists; reflexivity|].
    apply List.Forall_cons; [eexists; reflexivity | apply List.Forall_nil]. }
  destruct (H0 Hk) as [Hok Hok'].
  split; [exact Hok|].
  split.
  - exact (proj1 (Hp Hok) (KStr "A1")).
  - exact (proj1 (Hl Hok') (KStr "A2")).
Defined.


(* ===================================================================== *)
(** ** Properties of the lifecycle handler *)
(* ===================================================================== *)

(** C6: an event of type alarm-delete is ignored: the handler returns with
    the world as it was, having issued no store call and no cache call. *)
Theorem delete_event_is_ignored (alarm : loc) (w : world) :
  py_get "event_type" (dict_at (mem w) alarm) = VStr "alarm-delete" ->
  handle_alarm_lifecycle alarm w = (Ok tt, w).
Proof.
  intros H. unfold handle_alarm_lifecycle, bind, gets, ret. simpl.
  rewrite H. simpl.
  destruct (truthy (py_get "alarm_id" (dict_at (mem w) alarm))); reflexivity.
Qed.

Lemma delete_event_is_ignored_witness :
  py_get "event_type"
    (dict_at (mem (world_at_rest sample_loaded sample_db [])) 6%nat)
  = VStr "alarm-delete"
  /\ handle_alarm_lifecycle 6%nat (world_at_rest sample_loaded sample_db [])
     = (Ok tt, world_at_rest sample_loaded sample_db []).
Proof.
  split; [reflexivity|].
  apply (delete_event_is_ignored 6%nat
           (world_at_rest sample_loaded sample_db [])).
  reflexivity.
Defined.

(** Symbolic execution of the handler: the cache methods and the dict
    operations stay folded, and the case analysis follows the run, splitting
    on the outcome of a store call only when the run reaches it. *)
#[local] Arguments remove : simpl never.
#[local] Arguments add_or_update : simpl never.
#[local] Arguments truthy : simpl never.
#[local] Arguments py_get : simpl never.
#[local] Arguments dict_get : simpl never.
#[local] Arguments dict_pop : simpl never.
#[local] Arguments dict_set : simpl never.

Ltac unfold_handler :=
  unfold handle_alarm_lifecycle, get_conn, with_cursor, try_finally,
    try_except_reraise, cache_remove, cache_add_or_update, connect, cursor,
    execute, fetchone, cursor_close, commit, rollback, close, log, may_fail,
    on_mem, set_txn, bind, ret, gets, modify, lift, raise.

Ltac step :=
  match goal with
  | |- context [match ?x with [] => _ | _ :: _ => _ end] =>
      is_var x; destruct x as [|[] ?]; simpl in *; try discriminate
  | |- context [remove ?a ?m] =>
      let E := fresh "Erm" in
      destruct (remove a m) as [[[]|?] ?] eqn:E; simpl in *
  | |- context [add_or_update ?a ?m] =>
      let E := fresh "Eadd" in
      destruct (add_or_update a m) as [[[]|?] ?] eqn:E; simpl in *
  | |- context [match dict_get ?e ?k ?d with _ => _ end] =>
      let E := fresh "Eget" in destruct (dict_get e k d) eqn:E; simpl in *
  | |- context [if truthy ?v then _ else _] =>
      let E := fresh "Etr" in destruct (truthy v) eqn:E; simpl in *
  end.

Lemma issued_before_nil c1 c2 : issued_before c1 c2 [].
Proof. intros [|? ?] ? H; discriminate H. Qed.

Lemma issued_before_other c1 c2 c cs :
  c <> c2 -> issued_before c1 c2 cs -> issued_before c1 c2 (c :: cs).
Proof.
  intros Hne H [|x pre] post E; simpl in E.
  - injection E as E1 E2. contradiction.
  - injection E as E1 E2. right. eapply H. exact E2.
Qed.

Lemma issued_before_first c1 c2 cs :
  c1 <> c2 -> issued_before c1 c2 (c1 :: cs).
Proof.
  intros Hne [|x pre] post E; simpl in E; injection E as E1 E2.
  - contradiction.
  - left. symmetry. exact E1.
Qed.

Ltac solve_issued_before :=
  repeat (apply issued_before_nil
          || (apply issued_before_first; discriminate)
          || (apply issued_before_other; [discriminate|])).







(** The clear of A1 on the sample world, run to the end: the handler
    returns, the active row has moved to the history and the cache has
    forgotten A1. *)
Example clear_of_sample_alarm :
  let r := handle_alarm_lifecycle 5%nat
             (world_at_rest sample_loaded sample_db []) in
  fst r = Ok tt
  /\ committed (snd r)
     = mkDatabase [] [(VStr "A1", VDict sample_power_issue)]
  /\ active_power_issues (alarm_cache (mem (snd r))) = []
  /\ calls (snd r)
     = [DbConnect; DbCursor; CacheRemove (VStr "A1");
        DbExecute (DELETE_ACTIVE_SQL (VStr "A1")); DbFetchone;
        DbExecute (INSERT_HISTORY_SQL (VStr "A1") (VDict sample_power_issue));
        DbCursorClose; DbCommit; DbClose].
Proof. vm_compute. repeat split. Qed.

(** The create of A1 on an empty store and cache. *)
Example create_of_sample_alarm :
  let r := handle_alarm_lifecycle 0%nat
             (world_at_rest sample_memory (mkDatabase [] []) []) in
  fst r = Ok tt
  /\ committed (snd r) = sample_db
  /\ active_power_issues (alarm_cache (mem (snd r))) = [(KStr "A1", 0%nat)]
  /\ calls (snd r)
     = [DbConnect; DbCursor;
        DbExecute (UPSERT_ACTIVE_SQL (VStr "A1") (VDict sample_power_issue));
        CacheAddOrUpdate 0%nat; DbCursorClose; DbCommit; DbClose].
Proof. vm_compute. repeat split. Qed.

Section DictEntries.
Context {K V : Type} (eqb : K -> K -> bool) (P : K * V -> Prop).

Lemma dict_set_Forall k v (d : pydict K V) :
  (forall k', P (k', v)) -> Forall P d -> Forall P (dict_set eqb k v d).
Proof.
  intros Hv. unfold dict_set.
  induction d as [|[k' v'] d IH]; simpl; intros Hd.
  - constructor; [apply Hv | constructor].
  - inversion Hd; subst. destruct (eqb k k'); constructor; auto.
Qed.

Lemma dict_pop_Forall k (d : pydict K V) :
  Forall P d -> Forall P (dict_pop eqb k d).
Proof.
  unfold dict_pop.
  induction d as [|[k' v'] d IH]; simpl; intros Hd; [constructor|].
  inversion Hd; subst. destruct (eqb k k'); [assumption|].
  constructor; auto.
Qed.
End DictEntries.

Lemma truthy_get_nonempty k (a : record) :
  truthy (py_get k a) = true -> truthy (VDict a) = true.
Proof. destruct a; [discriminate | reflexivity]. Qed.

(** X16.  Every row the handler writes carries a non-empty document: the
    store keeps [payloads_nonempty] across any event, whatever the store
    calls do. *)
Lemma handler_keeps_payloads_nonempty (alarm : loc) (w : world) :
  payloads_nonempty (committed w) ->
  payloads_nonempty (committed (snd (handle_alarm_lifecycle alarm w))).
Proof.
  intros Hne. destruct w as [m db t rs fs cs]. simpl in *.
  unfold payloads_nonempty in *.
  unfold_handler. simpl.
  set (a := dict_at m alarm).
  destruct (truthy (py_get "alarm_id" a)) eqn:Eid; simpl; [|exact Hne].
  destruct (truthy (py_get "event_type" a)) eqn:Eev; simpl; [|exact Hne].
  destruct (py_eq_str (py_get "event_type" a) "alarm-delete"); simpl;
    [exact Hne|].
  destruct (py_eq_str (py_get "event_type" a) "alarm-change"
            && py_eq_str (py_get "severity" a) "CLEAR"); simpl.
  - repeat step; try exact Hne; apply dict_pop_Forall; exact Hne.
  - destruct (py_eq_str (py_get "event_type" a) "alarm-create"
              || py_eq_str (py_get "event_type" a) "alarm-change"); simpl.
    + destruct (truthy (py_get "alarm_name" a)) eqn:En; simpl.
      * destruct (truthy (py_get "ne_name" a)) eqn:Enn; simpl.
        -- repeat step; try exact Hne;
             (apply dict_set_Forall;
              [intros k'; simpl; eapply truthy_get_nonempty; exact En
              | exact Hne]).
        -- repeat step; exact Hne.
      * repeat step; exact Hne.
    + repeat step; exact Hne.
Qed.

(** [add_or_update] leaves the memory as it was when it raises. *)
Lemma add_or_update_raise alarm m e m' :
  add_or_update alarm m = (Raise e, m') -> m' = m.
Proof.
  unfold add_or_update, bind, gets, lift, ret, modify. simpl.
  destruct (py_getitem _ _) as [alarm_id|]; simpl; [|congruence].
  destruct (is_power_issue _), (is_los_alarm _), (hash_key alarm_id);
    simpl; congruence.
Qed.

(** X17.  On a create or a change that is not a clear, the cache writer is
    called only after the upsert statement has run, and a unit that fails
    before its commit is reached leaves the Python memory, the cache with
    it, and the stored tables as they were. *)
Lemma create_change_writes_store_first (alarm : loc) (w : world) :
  let a := dict_at (mem w) alarm in
  is_clear a = false ->
  exists new,
    calls (snd (handle_alarm_lifecycle alarm w)) = calls w ++ new
    /\ issued_before
         (DbExecute (UPSERT_ACTIVE_SQL (py_get "alarm_id" a) (VDict a)))
         (CacheAddOrUpdate alarm) new
    /\ (~ In DbCommit new -> mem (snd (handle_alarm_lifecycle alarm w)) = mem w)
    /\ (~ In DbCommit new ->
        committed (snd (handle_alarm_lifecycle alarm w)) = committed w).
Proof.
  intros a Hc. subst a.
  destruct w as [m db t rs fs cs]. simpl in *.
  unfold is_clear in Hc.
  unfold_handler. simpl.
  set (a := dict_at m alarm) in *.
  assert (Hnil : exists new : list call,
             cs = cs ++ new
             /\ issued_before
                  (DbExecute (UPSERT_ACTIVE_SQL (py_get "alarm_id" a) (VDict a)))
                  (CacheAddOrUpdate alarm) new
             /\ (~ In DbCommit new -> m = m)
             /\ (~ In DbCommit new -> db = db)).
  { exists []. rewrite app_nil_r.
    repeat split. apply issued_before_nil. }
  destruct (truthy (py_get "alarm_id" a)) eqn:Eid; simpl; [|exact Hnil].
  destruct (truthy (py_get "event_type" a)) eqn:Eev; simpl; [|exact Hnil].
  destruct (py_eq_str (py_get "event_type" a) "alarm-delete"); simpl;
    [exact Hnil|].
  rewrite Hc. clear Hnil.
  destruct (py_eq_str (py_get "event_type" a) "alarm-create"
            || py_eq_str (py_get "event_type" a) "alarm-change"); simpl.
  - destruct (truthy (py_get "alarm_name" a)) eqn:En; simpl;
      [destruct (truthy (py_get "ne_name" a)) eqn:Enn; simpl|].
    all: repeat step.
    all: rewrite <- ?app_assoc; simpl.
    all: eexists; split; [reflexivity|].
    all: split; [solve_issued_before|].
    all: try (split; reflexivity).
    all: try (split; intros Hn; exfalso; apply Hn; simpl; tauto).
    all: apply add_or_update_raise in Eadd; subst; split; reflexivity.
  - repeat step.
    all: rewrite <- ?app_assoc; simpl.
    all: eexists; split; [reflexivity|].
    all: split; [solve_issued_before|].
    all: split; reflexivity.
Qed.

(** C3 fails at the commit.  The create of A1, a power issue, runs its
    upsert statement and updates the cache inside the transaction block; the
    commit that follows raises.  The handler raises, the store has rolled
    back and holds no row for A1, and the cache holds A1 as an active power
    issue. *)
Theorem create_commit_failure_keeps_cache_update :
  let w := world_at_rest sample_memory (mkDatabase [] [])
             [false; false; false; true] in
  let r := handle_alarm_lifecycle 0%nat w in
  is_clear (dict_at (mem w) 0%nat) = false
  /\ fst r = Raise DbError
  /\ committed (snd r) = committed w
  /\ active_power_issues (alarm_cache (mem w)) = []
  /\ active_power_issues (alarm_cache (mem (snd r))) = [(KStr "A1", 0%nat)]
  /\ calls (snd r)
     = [DbConnect; DbCursor;
        DbExecute (UPSERT_ACTIVE_SQL (VStr "A1") (VDict sample_power_issue));
        CacheAddOrUpdate 0%nat; DbCursorClose; DbCommit; DbRollback; DbClose].
Proof. vm_compute. repeat split. Qed.

(** X18.  On a clear the eviction stands whatever the store does
    afterwards: once the connection and its cursor are open, the memory the
    handler leaves is the one [remove] produced, also when the unit fails
    and rolls back. *)
Lemma clear_eviction_not_rolled_back (alarm : loc) (w : world) :
  let a := dict_at (mem w) alarm in
  let alarm_id := py_get "alarm_id" a in
  py_get "event_type" a = VStr "alarm-change" ->
  py_get "severity" a = VStr "CLEAR" ->
  truthy alarm_id = true ->
  first_calls_succeed 2 w = true ->
  mem (snd (handle_alarm_lifecycle alarm w)) = snd (remove alarm_id (mem w)).
Proof.
  intros a alarm_id Hev Hsev Htr Hf. subst a.
  destruct w as [m db t rs fs cs]. simpl in *.
  unfold first_calls_succeed in Hf. simpl in Hf.
  unfold_handler. simpl. fold alarm_id. rewrite Hev, Hsev, Htr. simpl.
  replace (truthy (VStr "alarm-change")) with true by reflexivity. simpl.
  repeat step; reflexivity.
Qed.

(** A clear whose delete statement fails: the store is as before, A1 is
    still an active row, and the cache has forgotten A1. *)
Example clear_delete_failure :
  let w := world_at_rest sample_loaded sample_db [false; false; true] in
  let r := handle_alarm_lifecycle 5%nat w in
  fst r = Raise DbError
  /\ committed (snd r) = sample_db
  /\ active_power_issues (alarm_cache (mem w)) = [(KStr "A1", 0%nat)]
  /\ active_power_issues (alarm_cache (mem (snd r))) = [].
Proof. vm_compute. repeat split. Qed.

(** An event without an alarm_id or without an event type (missing, [None]
    or empty) is dropped before any store or cache call. *)
Lemma missing_identity_is_dropped (alarm : loc) (w : world) :
  truthy (py_get "alarm_id" (dict_at (mem w) alarm)) = false
  \/ truthy (py_get "event_type" (dict_at (mem w) alarm)) = false ->
  handle_alarm_lifecycle alarm w = (Ok tt, w).
Proof.
  intros H. unfold handle_alarm_lifecycle, bind, gets, ret. simpl.
  destruct H as [-> | ->]; simpl; [reflexivity|].
  rewrite orb_true_r. reflexivity.
Qed.

(** A create, or a change that is not a clear, without alarm_name or without
    ne_name: the handler issues no statement and no cache call, and the
    Python memory and the stored tables are as before.  It opens and commits
    a transaction, and returns when those three store calls succeed. *)
Lemma missing_fields_are_dropped (alarm : loc) (w : world) :
  let a := dict_at (mem w) alarm in
  truthy (py_get "alarm_id" a) = true ->
  is_create_or_change a = true ->
  is_clear a = false ->
  truthy (py_get "alarm_name" a) = false
  \/ truthy (py_get "ne_name" a) = false ->
  mem (snd (handle_alarm_lifecycle alarm w)) = mem w
  /\ committed (snd (handle_alarm_lifecycle alarm w)) = committed w
  /\ (exists new,
        calls (snd (handle_alarm_lifecycle alarm w)) = calls w ++ new
        /\ forallb (fun c => negb (is_mutation c)) new = true)
  /\ (first_calls_succeed 3 w = true ->
      fst (handle_alarm_lifecycle alarm w) = Ok tt).
Proof.
  intros a Hid Hcc Hc Hmiss. subst a.
  destruct w as [m db t rs fs cs]. simpl in *.
  unfold is_clear, is_create_or_change, first_calls_succeed in *. simpl.
  unfold_handler. simpl.
  set (a := dict_at m alarm) in *.
  rewrite Hid, Hc, Hcc. simpl.
  assert (Hev : truthy (py_get "event_type" a) = true
                /\ py_eq_str (py_get "event_type" a) "alarm-delete" = false).
  { destruct (py_get "event_type" a) as [| | |s| |]; try discriminate Hcc.
    simpl in Hcc. apply orb_true_iff in Hcc.
    destruct Hcc as [E|E]; apply String.eqb_eq in E; subst s; split; reflexivity. }
  destruct Hev as [-> ->]. simpl.
  assert (Hg : negb (truthy (py_get "alarm_name" a))
               || negb (truthy (py_get "ne_name" a)) = true).
  { destruct Hmiss as [-> | ->]; simpl; [reflexivity | apply orb_true_r]. }
  rewrite Hg.
  repeat step.
  all: rewrite <- ?app_assoc; simpl.
  all: repeat split; try discriminate.
  all: eexists; split; reflexivity.
Qed.

(** An envelope whose notification carries no ["nsp-fault:"] entry, or
    whose first such entry is empty or not a dict, yields [None]; the cache
    is not read and the memory is as before. *)
Lemma malformed_envelope_is_dropped
    (u : unicode) (LOCAL_TZ : Z -> Z)
    (map_severity : pyval -> pyval -> result pyval)
    (parse_affected_object : pyval -> result pyval)
    (should_drop_alarm : record -> loc -> loc -> M memory bool)
    (event data : pyval) (items : record) (m : memory) :
  attr_get "data" (VDict []) event = Ok data ->
  attr_get "ietf-restconf:notification" (VDict []) data = Ok (VDict items) ->
  match find_fault items with
  | None => True
  | Some (_, alarm) => truthy alarm = false \/ forall d, alarm <> VDict d
  end ->
  normalize_alarm u LOCAL_TZ map_severity parse_affected_object
    should_drop_alarm event m = (Ok VNone, m).
Proof.
  intros Hd Hn Hf. unfold normalize_alarm, bind, lift, ret.
  rewrite Hd, Hn. simpl.
  destruct (find_fault items) as [[event_type alarm]|]; [|reflexivity].
  destruct alarm as [| | | | |d]; try reflexivity.
  destruct Hf as [Hf | Hf].
  - rewrite Hf. reflexivity.
  - exfalso. exact (Hf d eq_refl).
Qed.

(** C7, as amended: malformed input is dropped without a record and without
    a change to the store or the cache.  An event whose alarm_id or event
    type is missing or empty is dropped before any call.  A create, or a
    change that is not a clear, whose alarm_name or ne_name is missing or
    empty is dropped with no statement and no cache call issued and returns
    once its empty transaction has opened and committed.  An envelope whose
    data and notification are absent or dicts, and which carries no alarm
    payload or one that is empty or not a dict, yields [None]. *)
Theorem malformed_input_is_dropped :
  (forall (alarm : loc) (w : world),
     truthy (py_get "alarm_id" (dict_at (mem w) alarm)) = false
     \/ truthy (py_get "event_type" (dict_at (mem w) alarm)) = false ->
     handle_alarm_lifecycle alarm w = (Ok tt, w))
  /\ (forall (alarm : loc) (w : world),
        truthy (py_get "alarm_id" (dict_at (mem w) alarm)) = true ->
        is_create_or_change (dict_at (mem w) alarm) = true ->
        is_clear (dict_at (mem w) alarm) = false ->
        truthy (py_get "alarm_name" (dict_at (mem w) alarm)) = false
        \/ truthy (py_get "ne_name" (dict_at (mem w) alarm)) = false ->
        mem (snd (handle_alarm_lifecycle alarm w)) = mem w
        /\ committed (snd (handle_alarm_lifecycle alarm w)) = committed w
        /\ (exists new,
              calls (snd (handle_alarm_lifecycle alarm w)) = calls w ++ new
              /\ forallb (fun c => negb (is_mutation c)) new = true)
        /\ (first_calls_succeed 3 w = true ->
            fst (handle_alarm_lifecycle alarm w) = Ok tt))
  /\ (forall (u : unicode) (LOCAL_TZ : Z -> Z)
             (map_severity : pyval -> pyval -> result pyval)
             (parse_affected_object : pyval -> result pyval)
             (should_drop_alarm : record -> loc -> loc -> M memory bool)
             (event data : pyval) (items : record) (m : memory),
        attr_get "data" (VDict []) event = Ok data ->
        attr_get "ietf-restconf:notification" (VDict []) data
        = Ok (VDict items) ->
        match find_fault items with
        | None => True
        | Some (_, alarm) => truthy alarm = false \/ forall d, alarm <> VDict d
        end ->
        normalize_alarm u LOCAL_TZ map_severity parse_affected_object
          should_drop_alarm event m = (Ok VNone, m)).
Proof.
  split; [exact missing_identity_is_dropped|].
  split; [exact missing_fields_are_dropped|].
  exact malformed_envelope_is_dropped.
Qed.

Lemma malformed_input_is_dropped_witness :
  handle_alarm_lifecycle 4%nat (world_at_rest sample_loaded sample_db [])
  = (Ok tt, world_at_rest sample_loaded sample_db [])
  /\ (mem (snd (handle_alarm_lifecycle 7%nat
                  (world_at_rest sample_loaded sample_db [])))
      = sample_loaded
      /\ fst (handle_alarm_lifecycle 7%nat
                (world_at_rest sample_loaded sample_db [])) = Ok tt)
  /\ normalize_alarm sample_unicode (fun _ => 21600) (fun raw _ => Ok raw)
       (fun _ => Ok VNone) (fun _ _ _ => ret false)
       (VDict [("data", VDict [("ietf-restconf:notification",
                                VDict [("eventTime", VStr "t")])])])
       sample_loaded
     = (Ok VNone, sample_loaded).
Proof.
  destruct malformed_input_is_dropped as [H1 [H2 H3]].
  split; [|split].
  - apply H1. left. reflexivity.
  - destruct (H2 7%nat (world_at_rest sample_loaded sample_db []))
      as [Hm [_ [_ Hr]]].
    + reflexivity.
    + reflexivity.
    + reflexivity.
    + right. reflexivity.
    + split; [exact Hm | apply Hr; reflexivity].
  - eapply H3.
    + reflexivity.
    + reflexivity.
    + exact I.
Defined.

(** C7, as stated, fails in three places.  A change with severity CLEAR is
    processed without alarm_name and ne_name: the clear of A1 deletes the
    active row, appends it to the history and evicts A1 from the cache.  A
    create without ne_name is looked at only inside the transaction block,
    so when the store cannot be reached the failure propagates.  And an
    envelope whose data is [None] raises [AttributeError]. *)
Lemma malformed_input_not_always_dropped :
  (dict_get String.eqb "ne_name" sample_clear = None
   /\ dict_get String.eqb "alarm_name" sample_clear = None
   /\ committed (snd (handle_alarm_lifecycle 5%nat
                        (world_at_rest sample_loaded sample_db [])))
      = mkDatabase [] [(VStr "A1", VDict sample_power_issue)]
   /\ active_power_issues (alarm_cache sample_loaded) = [(KStr "A1", 0%nat)]
   /\ active_power_issues
        (alarm_cache (mem (snd (handle_alarm_lifecycle 5%nat
                                  (world_at_rest sample_loaded sample_db [])))))
      = [])
  /\ (dict_get String.eqb "ne_name" sample_no_ne_name = None
      /\ fst (handle_alarm_lifecycle 7%nat
                (world_at_rest sample_loaded sample_db [true]))
         = Raise DbError)
  /\ fst (normalize_alarm sample_unicode (fun _ => 21600) (fun raw _ => Ok raw)
            (fun _ => Ok VNone) (fun _ _ _ => ret false)
            (VDict [("data", VNone)]) sample_loaded)
     = Raise AttributeError.
Proof. vm_compute. repeat split. Qed.

(* ===================================================================== *)
(** ** The handler as a transaction *)
(* ===================================================================== *)

Ltac solve_ends_with :=
  match goal with
  | |- ends_with ?s ?l =>
      exists (firstn (length l - length s) l); reflexivity
  end.

(** Case analysis on the tests the handler makes on the event, down to the
    run of the branch taken. *)
Ltac handler_branches a :=
  destruct (truthy (py_get "alarm_id" a)) eqn:Eid; simpl;
  [destruct (truthy (py_get "event_type" a)) eqn:Eev; simpl;
   [destruct (py_eq_str (py_get "event_type" a) "alarm-delete") eqn:Edel; simpl;
    [|destruct (py_eq_str (py_get "event_type" a) "alarm-change"
                && py_eq_str (py_get "severity" a) "CLEAR") eqn:Eclr; simpl;
      [|destruct (py_eq_str (py_get "event_type" a) "alarm-create"
                  || py_eq_str (py_get "event_type" a) "alarm-change") eqn:Ecc;
        simpl;
        [destruct (truthy (py_get "alarm_name" a)) eqn:En; simpl;
         [destruct (truthy (py_get "ne_name" a)) eqn:Enn; simpl|]|]]]|]|].

(** X9.  The store calls of one event are one unit: whenever the handler
    raises, for whatever reason and at whatever call, the stored tables are
    the ones it found. *)
Theorem handler_raises_store_unchanged (alarm : loc) (w : world) (e : exn) :
  fst (handle_alarm_lifecycle alarm w) = Raise e ->
  committed (snd (handle_alarm_lifecycle alarm w)) = committed w.
Proof.
  destruct w as [m db t rs fs cs]. simpl.
  unfold_handler. simpl.
  set (a := dict_at m alarm).
  handler_branches a; try discriminate.
  all: repeat step.
  all: intros H; try discriminate H; reflexivity.
Qed.

Lemma handler_raises_store_unchanged_witness :
  fst (handle_alarm_lifecycle 5%nat
         (world_at_rest sample_loaded sample_db [false; false; false; false; true]))
  = Raise DbError
  /\ committed (snd (handle_alarm_lifecycle 5%nat
                       (world_at_rest sample_loaded sample_db
                          [false; false; false; false; true])))
     = sample_db.
Proof.
  split; [reflexivity|].
  apply (handler_raises_store_unchanged 5%nat
           (world_at_rest sample_loaded sample_db
              [false; false; false; false; true]) DbError).
  reflexivity.
Defined.

(** X10.  The handler leaves no connection open and no transaction
    undecided.  It issues no call at all, or it starts with the connect;
    when it returns after connecting, its last two calls are the commit and
    the close; when it raises, the connect itself failed or its last two
    calls are the rollback and the close. *)
Theorem handler_closes_connection (alarm : loc) (w : world) :
  exists new,
    calls (snd (handle_alarm_lifecycle alarm w)) = calls w ++ new
    /\ match fst (handle_alarm_lifecycle alarm w) with
       | Ok _ =>
           new = []
           \/ (hd_error new = Some DbConnect
               /\ ends_with [DbCommit; DbClose] new)
       | Raise _ =>
           new = [DbConnect]
           \/ (hd_error new = Some DbConnect
               /\ ends_with [DbRollback; DbClose] new)
       end.
Proof.
  destruct w as [m db t rs fs cs]. simpl.
  unfold_handler. simpl.
  set (a := dict_at m alarm).
  handler_branches a.
  all: try (exists []; rewrite app_nil_r; split; [reflexivity | left; reflexivity]).
  all: repeat step.
  all: rewrite <- ?app_assoc; simpl.
  all: eexists; split; [reflexivity|].
  all: try (left; reflexivity).
  all: right; split; [reflexivity | solve_ends_with].
Qed.

(** X11.  An event of any type other than create, change and delete changes
    nothing: no statement is executed, no cache writer is called, and the
    memory and the stored tables are as before. *)
Theorem other_event_types_change_nothing (alarm : loc) (w : world) :
  is_create_or_change (dict_at (mem w) alarm) = false ->
  mem (snd (handle_alarm_lifecycle alarm w)) = mem w
  /\ committed (snd (handle_alarm_lifecycle alarm w)) = committed w
  /\ exists new,
       calls (snd (handle_alarm_lifecycle alarm w)) = calls w ++ new
       /\ forallb (fun c => negb (is_mutation c)) new = true.
Proof.
  intros Hcc. destruct w as [m db t rs fs cs]. simpl in *.
  unfold is_create_or_change in Hcc.
  unfold_handler. simpl.
  set (a := dict_at m alarm) in *.
  assert (Hclr : py_eq_str (py_get "event_type" a) "alarm-change"
                 && py_eq_str (py_get "severity" a) "CLEAR" = false).
  { apply orb_false_iff in Hcc. destruct Hcc as [_ ->]. reflexivity. }
  rewrite Hclr, Hcc. simpl.
  destruct (truthy (py_get "alarm_id" a)); simpl;
    [destruct (truthy (py_get "event_type" a)); simpl;
     [destruct (py_eq_str (py_get "event_type" a) "alarm-delete"); simpl|]|].
  all: try (split; [reflexivity|]; split; [reflexivity|];
            exists []; rewrite app_nil_r; split; reflexivity).
  repeat step.
  all: rewrite <- ?app_assoc; simpl.
  all: split; [reflexivity|]; split; [reflexivity|].
  all: eexists; split; reflexivity.
Qed.

(** The heartbeat at reference 8: a transaction is opened and committed,
    and nothing else happens. *)
Lemma other_event_types_change_nothing_witness :
  mem (snd (handle_alarm_lifecycle 8%nat
              (world_at_rest sample_extended sample_db []))) = sample_extended
  /\ committed (snd (handle_alarm_lifecycle 8%nat
                       (world_at_rest sample_extended sample_db []))) = sample_db
  /\ calls (snd (handle_alarm_lifecycle 8%nat
                   (world_at_rest sample_extended sample_db [])))
     = [DbConnect; DbCursor; DbCursorClose; DbCommit; DbClose].
Proof.
  destruct (other_event_types_change_nothing 8%nat
              (world_at_rest sample_extended sample_db []) eq_refl)
    as [H1 [H2 _]].
  split; [exact H1 | split; [exact H2 | reflexivity]].
Defined.

(** *** Create, change and clear, when the store answers *)

Lemma pyval_eqb_refl : forall v : pyval, pyval_eqb v v = true.
Proof.
  fix IH 1. intros [| b | z | s | l | d]; simpl.
  - reflexivity.
  - destruct b; reflexivity.
  - apply Z.eqb_refl.
  - apply String.eqb_refl.
  - induction l as [|x xs IHl]; [reflexivity|].
    rewrite (IH x). exact IHl.
  - induction d as [|[k x] xs IHd]; [reflexivity|].
    rewrite String.eqb_refl, (IH x). exact IHd.
Qed.

Section DictSameKey.
Context {K V : Type} (eqb : K -> K -> bool) (k : K).
Hypothesis eqb_refl : eqb k k = true.

Lemma dict_get_set_same (v : V) (d : pydict K V) :
  dict_get eqb k (dict_set eqb k v d) = Some v.
Proof.
  unfold dict_get, dict_set.
  induction d as [|[k0 v0] d IH]; simpl.
  - rewrite eqb_refl. reflexivity.
  - destruct (eqb k k0) eqn:E; simpl; rewrite E; [reflexivity | exact IH].
Qed.

Lemma dict_pop_set_absent (v : V) (d : pydict K V) :
  dict_get eqb k d = None -> dict_pop eqb k (dict_set eqb k v d) = d.
Proof.
  unfold dict_get, dict_set, dict_pop.
  induction d as [|[k0 v0] d IH]; simpl; intros H.
  - rewrite eqb_refl. reflexivity.
  - destruct (eqb k k0) eqn:E; [discriminate H|]. simpl. rewrite E.
    rewrite (IH H). reflexivity.
Qed.
End DictSameKey.

Lemma add_or_update_dict_at (alarm : loc) (m : memory) :
  dict_at (snd (add_or_update alarm m)) = dict_at m.
Proof. exact (run_op_dict_at (Add_or_update alarm) m). Qed.

(** A store whose calls all succeed is left that way. *)
Lemma handler_leaves_no_faults (alarm : loc) (w : world) :
  faults w = [] -> faults (snd (handle_alarm_lifecycle alarm w)) = [].
Proof.
  destruct w as [m db t rs fs cs]. simpl. intros ->.
  unfold_handler. simpl.
  set (a := dict_at m alarm).
  handler_branches a; try reflexivity.
  all: repeat step; reflexivity.
Qed.

(** The run of a create, or of a change that is not a clear, that has its
    two names. *)
Lemma create_run (alarm : loc) (w : world) :
  let a := dict_at (mem w) alarm in
  truthy (py_get "alarm_id" a) = true ->
  is_create_or_change a = true ->
  is_clear a = false ->
  truthy (py_get "alarm_name" a) = true ->
  truthy (py_get "ne_name" a) = true ->
  (fst (handle_alarm_lifecycle alarm w) = Ok tt ->
   fst (add_or_update alarm (mem w)) = Ok tt
   /\ mem (snd (handle_alarm_lifecycle alarm w))
      = snd (add_or_update alarm (mem w))
   /\ committed (snd (handle_alarm_lifecycle alarm w))
      = mkDatabase
          (dict_set pyval_eqb (py_get "alarm_id" a) (VDict a)
                    (active_alarms (committed w)))
          (alarm_history (committed w)))
  /\ (first_calls_succeed 4 w = true ->
      fst (add_or_update alarm (mem w)) = Ok tt ->
      fst (handle_alarm_lifecycle alarm w) = Ok tt).
Proof.
  intros a Hid Hcc Hc Hn Hnn. subst a.
  destruct w as [m db t rs fs cs]. simpl in *.
  unfold is_clear, is_create_or_change, first_calls_succeed in *. simpl.
  unfold_handler. simpl.
  set (a := dict_at m alarm) in *.
  assert (Hev : truthy (py_get "event_type" a) = true
                /\ py_eq_str (py_get "event_type" a) "alarm-delete" = false).
  { destruct (py_get "event_type" a) as [| | |s| |]; try discriminate Hcc.
    simpl in Hcc. apply orb_true_iff in Hcc.
    destruct Hcc as [E|E]; apply String.eqb_eq in E; subst s; split; reflexivity. }
  destruct Hev as [Hev Hdel].
  rewrite Hid, Hev, Hdel, Hc, Hcc, Hn, Hnn. simpl.
  repeat step.
  all: split; [intros H; try discriminate H; repeat split
              | intros H1 H2; try discriminate H1; try discriminate H2;
                reflexivity].
Qed.

(** The run of a clear. *)
Lemma clear_run (alarm : loc) (w : world) :
  let a := dict_at (mem w) alarm in
  let alarm_id := py_get "alarm_id" a in
  truthy alarm_id = true ->
  is_clear a = true ->
  (fst (handle_alarm_lifecycle alarm w) = Ok tt ->
   mem (snd (handle_alarm_lifecycle alarm w)) = snd (remove alarm_id (mem w))
   /\ active_alarms (committed (snd (handle_alarm_lifecycle alarm w)))
      = dict_pop pyval_eqb alarm_id (active_alarms (committed w))
   /\ alarm_history (committed (snd (handle_alarm_lifecycle alarm w)))
      = alarm_history (committed w)
        ++ match dict_get pyval_eqb alarm_id (active_alarms (committed w)) with
           | Some payload => if truthy payload then [(alarm_id, payload)] else []
           | None => []
           end)
  /\ (faults w = [] ->
      fst (remove alarm_id (mem w)) = Ok tt ->
      fst (handle_alarm_lifecycle alarm w) = Ok tt).
Proof.
  intros a alarm_id Hid Hc. subst a.
  destruct w as [m db t rs fs cs]. simpl in *.
  unfold is_clear in Hc.
  unfold_handler. simpl.
  set (a := dict_at m alarm) in *. fold alarm_id.
  assert (Hev : truthy (py_get "event_type" a) = true
                /\ py_eq_str (py_get "event_type" a) "alarm-delete" = false).
  { apply andb_true_iff in Hc. destruct Hc as [Hc _].
    destruct (py_get "event_type" a) as [| | |s| |]; try discriminate Hc.
    simpl in Hc. apply String.eqb_eq in Hc. subst s. split; reflexivity. }
  destruct Hev as [Hev Hdel].
  rewrite Hid, Hev, Hdel, Hc. simpl.
  repeat step.
  all: split; [intros H; try discriminate H; rewrite ?app_nil_r; repeat split
              | intros H1 H2; try discriminate H1; try discriminate H2;
                reflexivity].
Qed.

(** X12.  A create, or a change that is not a clear, with a non-empty
    alarm_id, alarm_name and ne_name returns whenever the four store calls
    and the cache writer succeed; and whenever it returns, the active table
    holds the alarm's document under its alarm_id, the history is as it was
    and the memory is the one [add_or_update] left. *)
Theorem create_stores_and_caches (alarm : loc) (w : world) :
  let a := dict_at (mem w) alarm in
  truthy (py_get "alarm_id" a) = true ->
  is_create_or_change a = true ->
  is_clear a = false ->
  truthy (py_get "alarm_name" a) = true ->
  truthy (py_get "ne_name" a) = true ->
  (first_calls_succeed 4 w = true ->
   fst (add_or_update alarm (mem w)) = Ok tt ->
   fst (handle_alarm_lifecycle alarm w) = Ok tt)
  /\ (fst (handle_alarm_lifecycle alarm w) = Ok tt ->
      dict_get pyval_eqb (py_get "alarm_id" a)
        (active_alarms (committed (snd (handle_alarm_lifecycle alarm w))))
      = Some (VDict a)
      /\ alarm_history (committed (snd (handle_alarm_lifecycle alarm w)))
         = alarm_history (committed w)
      /\ mem (snd (handle_alarm_lifecycle alarm w))
         = snd (add_or_update alarm (mem w))).
Proof.
  intros a Hid Hcc Hc Hn Hnn.
  destruct (create_run alarm w Hid Hcc Hc Hn Hnn) as [Hrun Hret].
  split; [exact Hret|].
  intros Hok. destruct (Hrun Hok) as [_ [Hm Hdb]].
  rewrite Hdb. simpl.
  split; [apply dict_get_set_same, pyval_eqb_refl|].
  split; [reflexivity | exact Hm].
Qed.

Lemma create_stores_and_caches_witness :
  fst (handle_alarm_lifecycle 1%nat
         (world_at_rest sample_memory sample_db [])) = Ok tt
  /\ dict_get pyval_eqb (VStr "A2")
       (active_alarms
          (committed (snd (handle_alarm_lifecycle 1%nat
                             (world_at_rest sample_memory sample_db [])))))
     = Some (VDict sample_los).
Proof.
  destruct (create_stores_and_caches 1%nat
              (world_at_rest sample_memory sample_db [])
              eq_refl eq_refl eq_refl eq_refl eq_refl) as [Hret Hrun].
  assert (Hok := Hret eq_refl eq_refl).
  split; [exact Hok | exact (proj1 (Hrun Hok))].
Defined.


Lemma truthy_get_present (k : string) (a : record) :
  truthy (py_get k a) = true ->
  dict_get String.eqb k a = Some (py_get k a).
Proof.
  unfold py_get. destruct (dict_get String.eqb k a); [reflexivity|].
  discriminate.
Qed.

Lemma add_or_update_ok (alarm : loc) (m : memory) (k : pykey) :
  truthy (py_get "alarm_id" (dict_at m alarm)) = true ->
  hash_key (py_get "alarm_id" (dict_at m alarm)) = Ok k ->
  fst (add_or_update alarm m) = Ok tt.
Proof.
  intros Hid Hk. rewrite add_or_update_run, (truthy_get_present _ _ Hid), Hk.
  destruct (is_power_issue _); [|destruct (is_los_alarm _)]; reflexivity.
Qed.

(** Evicting what [add_or_update] has just added, when the alarm_id was
    not cached before. *)
Lemma remove_after_add_or_update (alarm : loc) (m : memory) (k : pykey) :
  truthy (py_get "alarm_id" (dict_at m alarm)) = true ->
  hash_key (py_get "alarm_id" (dict_at m alarm)) = Ok k ->
  dict_get pykey_eqb k (active_power_issues (alarm_cache m)) = None ->
  dict_get pykey_eqb k (active_los_alarms (alarm_cache m)) = None ->
  fst (remove (py_get "alarm_id" (dict_at m alarm))
         (snd (add_or_update alarm m))) = Ok tt
  /\ alarm_cache (snd (remove (py_get "alarm_id" (dict_at m alarm))
                         (snd (add_or_update alarm m))))
     = alarm_cache m.
Proof.
  intros Hid Hk Hp Hl.
  rewrite add_or_update_run, (truthy_get_present _ _ Hid), Hk.
  destruct (is_power_issue _); [|destruct (is_los_alarm _)]; simpl;
    rewrite remove_run, !(pop_default_hashable _ _ _ Hk);
    unfold set_power_issues, set_los_alarms, set_cache; simpl;
    (split; [reflexivity|]);
    rewrite ?(dict_pop_set_absent pykey_eqb k (pykey_eqb_refl k)) by assumption;
    rewrite ?(dict_pop_absent _ _ Hp), ?(dict_pop_absent _ _ Hl);
    destruct (alarm_cache m); reflexivity.
Qed.

(** X13.  Create, then clear.  With a store that answers, creating an alarm
    whose alarm_id is neither stored nor cached and then clearing that
    alarm_id brings the active table and both cache mappings back to what
    they were, and leaves one more history row, carrying the alarm as it
    was created. *)
Theorem create_then_clear (c x : loc) (w : world) (k : pykey) :
  let a := dict_at (mem w) c in
  let alarm_id := py_get "alarm_id" a in
  let w1 := snd (handle_alarm_lifecycle c w) in
  let w2 := snd (handle_alarm_lifecycle x w1) in
  truthy alarm_id = true ->
  hash_key alarm_id = Ok k ->
  is_create_or_change a = true ->
  is_clear a = false ->
  truthy (py_get "alarm_name" a) = true ->
  truthy (py_get "ne_name" a) = true ->
  is_clear (dict_at (mem w) x) = true ->
  py_get "alarm_id" (dict_at (mem w) x) = alarm_id ->
  faults w = [] ->
  dict_get pyval_eqb alarm_id (active_alarms (committed w)) = None ->
  dict_get pykey_eqb k (active_power_issues (alarm_cache (mem w))) = None ->
  dict_get pykey_eqb k (active_los_alarms (alarm_cache (mem w))) = None ->
  fst (handle_alarm_lifecycle c w) = Ok tt
  /\ fst (handle_alarm_lifecycle x w1) = Ok tt
  /\ active_alarms (committed w2) = active_alarms (committed w)
  /\ alarm_history (committed w2)
     = alarm_history (committed w) ++ [(alarm_id, VDict a)]
  /\ alarm_cache (mem w2) = alarm_cache (mem w).
Proof.
  intros a alarm_id w1 w2 Hid Hk Hcc Hc Hn Hnn Hxc Hxid Hf Hdb Hp Hl.
  destruct (create_run c w Hid Hcc Hc Hn Hnn) as [Hrun Hret].
  assert (Hok : fst (handle_alarm_lifecycle c w) = Ok tt).
  { apply Hret.
    - unfold first_calls_succeed. rewrite Hf. reflexivity.
    - exact (add_or_update_ok c (mem w) k Hid Hk). }
  destruct (Hrun Hok) as [_ [Hm1 Hdb1]].
  fold w1 in Hm1, Hdb1. fold a in Hdb1. fold alarm_id in Hdb1.
  assert (Hat : dict_at (mem w1) = dict_at (mem w)).
  { rewrite Hm1. apply add_or_update_dict_at. }
  assert (Hf1 : faults w1 = []) by (apply handler_leaves_no_faults; exact Hf).
  destruct (remove_after_add_or_update c (mem w) k Hid Hk Hp Hl) as [Hrm Hca].
  fold a in Hrm, Hca. fold alarm_id in Hrm, Hca.
  destruct (clear_run x w1) as [Hrun2 Hret2].
  { rewrite Hat, Hxid. exact Hid. }
  { rewrite Hat. exact Hxc. }
  rewrite Hat, Hxid in Hrun2, Hret2.
  assert (Hok2 : fst (handle_alarm_lifecycle x w1) = Ok tt).
  { apply Hret2; [exact Hf1|]. rewrite Hm1. exact Hrm. }
  destruct (Hrun2 Hok2) as [Hm2 [Hact Hhist]].
  fold w2 in Hm2, Hact, Hhist.
  split; [exact Hok|]. split; [exact Hok2|].
  rewrite Hdb1 in Hact, Hhist. simpl in Hact, Hhist.
  rewrite (dict_get_set_same pyval_eqb alarm_id (pyval_eqb_refl alarm_id))
    in Hhist.
  rewrite (truthy_get_nonempty _ _ Hn) in Hhist.
  rewrite (dict_pop_set_absent pyval_eqb alarm_id (pyval_eqb_refl alarm_id)
             _ _ Hdb) in Hact.
  split; [exact Hact|]. split; [exact Hhist|].
  rewrite Hm2, Hm1. exact Hca.
Qed.

Lemma create_then_clear_witness :
  active_alarms
    (committed
       (snd (handle_alarm_lifecycle 5%nat
               (snd (handle_alarm_lifecycle 0%nat
                       (world_at_rest sample_memory (mkDatabase [] []) []))))))
  = []
  /\ alarm_history
       (committed
          (snd (handle_alarm_lifecycle 5%nat
                  (snd (handle_alarm_lifecycle 0%nat
                          (world_at_rest sample_memory (mkDatabase [] []) []))))))
     = [] ++ [(VStr "A1", VDict sample_power_issue)]
  /\ alarm_cache
       (mem (snd (handle_alarm_lifecycle 5%nat
                    (snd (handle_alarm_lifecycle 0%nat
                            (world_at_rest sample_memory (mkDatabase [] []) []))))))
     = alarm_cache sample_memory.
Proof.
  destruct (create_then_clear 0%nat 5%nat
              (world_at_rest sample_memory (mkDatabase [] []) []) (KStr "A1")
              eq_refl eq_refl eq_refl eq_refl eq_refl eq_refl eq_refl eq_refl
              eq_refl eq_refl eq_refl eq_refl)
    as [_ [_ [H1 [H2 H3]]]].
  split; [exact H1 | split; [exact H2 | exact H3]].
Defined.

(** X14.  Handling the same create or change twice stores and caches what
    handling it once does: with a store that answers, both runs return, and
    after the second every stored alarm_id carries the document the first
    run left for it, in the same rows, the history is as the first run left
    it, and so is the memory, the cache with it.  The statement is about the
    alarm_id and alarm columns; the upsert also sets [last_updated] to the
    time of each run, a column no code reads and the tables here do not
    carry. *)
Theorem create_is_idempotent (alarm : loc) (w : world) (k : pykey) :
  let a := dict_at (mem w) alarm in
  let w1 := snd (handle_alarm_lifecycle alarm w) in
  let w2 := snd (handle_alarm_lifecycle alarm w1) in
  truthy (py_get "alarm_id" a) = true ->
  hash_key (py_get "alarm_id" a) = Ok k ->
  is_create_or_change a = true ->
  is_clear a = false ->
  truthy (py_get "alarm_name" a) = true ->
  truthy (py_get "ne_name" a) = true ->
  faults w = [] ->
  fst (handle_alarm_lifecycle alarm w) = Ok tt
  /\ fst (handle_alarm_lifecycle alarm w1) = Ok tt
  /\ active_alarms (committed w2) = active_alarms (committed w1)
  /\ alarm_history (committed w2) = alarm_history (committed w1)
  /\ mem w2 = mem w1.
Proof.
  intros a w1 w2 Hid Hk Hcc Hc Hn Hnn Hf.
  destruct (create_run alarm w Hid Hcc Hc Hn Hnn) as [Hrun Hret].
  assert (Hok : fst (handle_alarm_lifecycle alarm w) = Ok tt).
  { apply Hret.
    - unfold first_calls_succeed. rewrite Hf. reflexivity.
    - exact (add_or_update_ok alarm (mem w) k Hid Hk). }
  destruct (Hrun Hok) as [_ [Hm1 Hdb1]].
  fold w1 in Hm1, Hdb1. fold a in Hdb1.
  assert (Hat : dict_at (mem w1) = dict_at (mem w)).
  { rewrite Hm1. apply add_or_update_dict_at. }
  assert (Hf1 : faults w1 = []) by (apply handler_leaves_no_faults; exact Hf).
  destruct (create_run alarm w1) as [Hrun2 Hret2];
    try (rewrite Hat; assumption).
  assert (Hok2 : fst (handle_alarm_lifecycle alarm w1) = Ok tt).
  { apply Hret2.
    - unfold first_calls_succeed. rewrite Hf1. reflexivity.
    - apply (add_or_update_ok alarm (mem w1) k); rewrite Hat; assumption. }
  destruct (Hrun2 Hok2) as [_ [Hm2 Hdb2]].
  fold w2 in Hm2, Hdb2. rewrite Hat in Hdb2. fold a in Hdb2.
  split; [exact Hok|]. split; [exact Hok2|].
  split; [|split].
  - rewrite Hdb2, Hdb1. simpl.
    rewrite dict_set_twice by apply pyval_eqb_refl. reflexivity.
  - rewrite Hdb2, Hdb1. reflexivity.
  - rewrite Hm2, Hm1. apply add_or_update_twice.
Qed.

Lemma create_is_idempotent_witness :
  active_alarms
    (committed
       (snd (handle_alarm_lifecycle 0%nat
               (snd (handle_alarm_lifecycle 0%nat
                       (world_at_rest sample_memory (mkDatabase [] []) []))))))
  = active_alarms sample_db
  /\ fst (handle_alarm_lifecycle 0%nat
            (snd (handle_alarm_lifecycle 0%nat
                    (world_at_rest sample_memory (mkDatabase [] []) []))))
     = Ok tt.
Proof.
  destruct (create_is_idempotent 0%nat
              (world_at_rest sample_memory (mkDatabase [] []) []) (KStr "A1")
              eq_refl eq_refl eq_refl eq_refl eq_refl eq_refl eq_refl)
    as [_ [H2 [H3 _]]].
  split; [rewrite H3; reflexivity | exact H2].
Defined.

(** X15.  The history is append-only: whatever the event and whatever the
    store calls do, the stored history after the handler is the one before
    it with at most one row added, and a row is added only by a clear. *)
Theorem history_is_append_only (alarm : loc) (w : world) :
  exists added,
    alarm_history (committed (snd (handle_alarm_lifecycle alarm w)))
    = alarm_history (committed w) ++ added
    /\ (length added <= 1)%nat
    /\ (added <> [] -> is_clear (dict_at (mem w) alarm) = true).
Proof.
  destruct w as [m db t rs fs cs]. simpl.
  unfold is_clear. unfold_handler. simpl.
  set (a := dict_at m alarm).
  handler_branches a.
  all: repeat step.
  all: try (exists []; rewrite app_nil_r;
            split; [reflexivity | split; [simpl; lia | congruence]]).
  all: eexists; split; [reflexivity | split; [simpl; lia | reflexivity]].
Qed.


(* ===================================================================== *)
(** ** More on the handler's ordering, with sample runs *)
(* ===================================================================== *)

Lemma handler_keeps_payloads_nonempty_witness :
  payloads_nonempty sample_db
  /\ payloads_nonempty
       (committed (snd (handle_alarm_lifecycle 1%nat
                          (world_at_rest sample_memory sample_db [])))).
Proof.
  assert (H : payloads_nonempty sample_db).
  { apply List.Forall_cons; [reflexivity | apply List.Forall_nil]. }
  split; [exact H|].
  exact (handler_keeps_payloads_nonempty 1%nat
           (world_at_rest sample_memory sample_db []) H).
Defined.

Lemma create_change_writes_store_first_witness :
  exists new,
    calls (snd (handle_alarm_lifecycle 0%nat
                  (world_at_rest sample_memory (mkDatabase [] [])
                     [false; false; true])))
    = [] ++ new
    /\ issued_before
         (DbExecute (UPSERT_ACTIVE_SQL (VStr "A1") (VDict sample_power_issue)))
         (CacheAddOrUpdate 0%nat) new
    /\ (~ In DbCommit new ->
        mem (snd (handle_alarm_lifecycle 0%nat
                    (world_at_rest sample_memory (mkDatabase [] [])
                       [false; false; true])))
        = sample_memory)
    /\ (~ In DbCommit new ->
        committed (snd (handle_alarm_lifecycle 0%nat
                          (world_at_rest sample_memory (mkDatabase [] [])
                             [false; false; true])))
        = mkDatabase [] []).
Proof.
  exact (create_change_writes_store_first 0%nat
           (world_at_rest sample_memory (mkDatabase [] [])
              [false; false; true]) eq_refl).
Defined.

Lemma clear_eviction_not_rolled_back_witness :
  mem (snd (handle_alarm_lifecycle 5%nat
              (world_at_rest sample_loaded sample_db [false; false; true])))
  = snd (remove (VStr "A1") sample_loaded).
Proof.
  exact (clear_eviction_not_rolled_back 5%nat
           (world_at_rest sample_loaded sample_db [false; false; true])
           eq_refl eq_refl eq_refl eq_refl).
Defined.


(* ===================================================================== *)
(** ** Properties of the timestamp converters *)
(* ===================================================================== *)

Example epoch_ms_to_utc_int (u : unicode) :
  epoch_ms_to_utc u (VInt 1700000000000) = Ok (VStr "2023-11-14T22:13:20Z").
Proof. vm_compute. reflexivity. Qed.

Example epoch_ms_to_utc_millis (u : unicode) :
  epoch_ms_to_utc u (VInt 1700000000123)
  = Ok (VStr "2023-11-14T22:13:20.123000Z").
Proof. vm_compute. reflexivity. Qed.

Example epoch_ms_to_utc_leap_day (u : unicode) :
  epoch_ms_to_utc u (VInt 1709164800000) = Ok (VStr "2024-02-29T00:00:00Z").
Proof. vm_compute. reflexivity. Qed.

Example epoch_ms_to_utc_before_epoch (u : unicode) :
  epoch_ms_to_utc u (VInt (-1)) = Ok (VStr "1969-12-31T23:59:59.999000Z").
Proof. vm_compute. reflexivity. Qed.

Example epoch_ms_to_utc_out_of_range (u : unicode) :
  epoch_ms_to_utc u (VInt 253402300800000) = Ok VNone.
Proof. vm_compute. reflexivity. Qed.

Example epoch_ms_to_utc_seconds (u : unicode) :
  epoch_ms_to_utc u (VDict [("seconds", VInt 1700000000)])
  = Ok (VStr "2023-11-14T22:13:20Z").
Proof. vm_compute. reflexivity. Qed.

(** [{"seconds": None}]: [None * 1000] raises. *)
Example epoch_ms_to_utc_seconds_none (u : unicode) :
  epoch_ms_to_utc u (VDict [("seconds", VNone)]) = Raise TypeError.
Proof. vm_compute. reflexivity. Qed.

Example utc_ms_to_local_iso_int (u : unicode) :
  utc_ms_to_local_iso u (fun _ => 21600) (VInt 1700000000000)
  = Ok (VStr "2023-11-15T04:13:20+06:00").
Proof. vm_compute. reflexivity. Qed.

(** The two characters of the sample database: the superscript passes
    [isdigit] and makes [int] raise; the Arabic-Indic digit is read as the
    number it stands for, three milliseconds after the epoch. *)
Example epoch_ms_to_utc_beyond_ascii :
  epoch_ms_to_utc sample_unicode (VStr superscript_two) = Raise ValueError
  /\ epoch_ms_to_utc sample_unicode (VStr arabic_indic_three)
     = Ok (VStr "1970-01-01T00:00:00.003000Z").
Proof. vm_compute. split; reflexivity. Qed.


(** A string of ASCII digits is ASCII text. *)
Lemma isdigit_ascii_is_ascii (s : string) :
  isdigit_ascii s = true -> is_ascii s = true.
Proof.
  unfold isdigit_ascii, is_ascii. destruct s as [|c0 s']; [discriminate|].
  generalize (list_ascii_of_string (String c0 s')). clear c0 s'.
  intros l. induction l as [|c l IH]; [reflexivity|].
  cbn [forallb]. intros H. apply andb_true_iff in H. destruct H as [Hc Hl].
  rewrite (IH Hl), andb_true_r.
  unfold is_ascii_digit in Hc. apply andb_true_iff in Hc. destruct Hc as [_ Hc].
  apply Nat.leb_le in Hc. apply Nat.ltb_lt. lia.
Qed.



(** A string of ASCII digits is read as the integer it spells. *)
Lemma ts_to_ms_digits (u : unicode) (s : string) :
  isdigit_ascii s = true -> (String.length s <= int_max_str_digits)%nat ->
  ts_to_ms u (VStr s) = ts_to_ms u (VInt (int_of_digits s)).
Proof.
  intros H Hlen. unfold ts_to_ms, isdigit, py_int.
  rewrite (isdigit_ascii_is_ascii s H), H. simpl.
  destruct (Nat.ltb_spec int_max_str_digits (String.length s)); [lia|].
  reflexivity.
Qed.





(** X30.  Numeric strings in general: a string of at most 4300 ASCII
    digits, leading zeros included, normalizes to what the integer it
    spells normalizes to, in both converters. *)
Lemma digit_string_as_integer (u : unicode) (LOCAL_TZ : Z -> Z) (s : string) :
  isdigit_ascii s = true -> (String.length s <= int_max_str_digits)%nat ->
  epoch_ms_to_utc u (VStr s) = epoch_ms_to_utc u (VInt (int_of_digits s))
  /\ utc_ms_to_local_iso u LOCAL_TZ (VStr s)
     = utc_ms_to_local_iso u LOCAL_TZ (VInt (int_of_digits s)).
Proof.
  intros H Hlen. unfold epoch_ms_to_utc, utc_ms_to_local_iso.
  rewrite (ts_to_ms_digits u s H Hlen). split; reflexivity.
Qed.

(** *** The two converters side by side *)

Lemma digit_string_as_integer_witness :
  epoch_ms_to_utc sample_unicode (VStr "0001700000000000")
  = epoch_ms_to_utc sample_unicode (VInt (int_of_digits "0001700000000000"))
  /\ utc_ms_to_local_iso sample_unicode (fun _ => 21600)
       (VStr "0001700000000000")
     = utc_ms_to_local_iso sample_unicode (fun _ => 21600)
         (VInt (int_of_digits "0001700000000000")).
Proof.
  apply (digit_string_as_integer sample_unicode (fun _ => 21600)
           "0001700000000000").
  - reflexivity.
  - unfold int_max_str_digits. simpl. lia.
Defined.

(** X19.  The two converters fail alike: on every input and for every zone,
    one raises an exception exactly when the other raises it, and whenever
    the UTC converter gives [None] the local one gives [None] too. *)
Theorem converters_fail_alike (u : unicode) (LOCAL_TZ : Z -> Z) (ts : pyval) :
  (forall e, epoch_ms_to_utc u ts = Raise e
             <-> utc_ms_to_local_iso u LOCAL_TZ ts = Raise e)
  /\ (epoch_ms_to_utc u ts = Ok VNone ->
      utc_ms_to_local_iso u LOCAL_TZ ts = Ok VNone).
Proof.
  unfold epoch_ms_to_utc, utc_ms_to_local_iso.
  destruct (ts_to_ms u ts) as [[ms|]|e0].
  - destruct (isoformat_ms ms) as [s|]; simpl.
    + split; [split; intros H; discriminate H | intros H; discriminate H].
    + split; [split; intros H; discriminate H | reflexivity].
  - split; [split; intros H; discriminate H | reflexivity].
  - split; [split; intros H; exact H | intros H; discriminate H].
Qed.

(** What a dict stands for: the first of value and milliseconds that is
    truthy, else the seconds times 1000. *)
Lemma ts_to_ms_dict (u : unicode) (d : record) :
  ts_to_ms u (VDict d)
  = match ts_of_dict d with
    | Raise e => Raise e
    | Ok (VStr s) =>
        if negb (isdigit u s) then Ok None
        else match py_int u s with
             | Raise e => Raise e
             | Ok z => Ok (Some z)
             end
    | Ok v => Ok (as_number v)
    end.
Proof.
  unfold ts_to_ms. destruct (ts_of_dict d) as [[]|]; reflexivity.
Qed.

Lemma ts_to_ms_scalar (u : unicode) (v : pyval) :
  (forall d, v <> VDict d) ->
  ts_to_ms u v
  = match v with
    | VStr s =>
        if negb (isdigit u s) then Ok None
        else match py_int u s with
             | Raise e => Raise e
             | Ok z => Ok (Some z)
             end
    | _ => Ok (as_number v)
    end.
Proof.
  intros Hd. destruct v as [| | | | |d]; try reflexivity.
  exfalso. exact (Hd d eq_refl).
Qed.

(** X20.  A dict is read through its keys in order of preference.  A truthy
    value that is not itself a dict is converted as if it had been passed
    alone; failing that, a truthy milliseconds likewise; and when both are
    missing, [None], zero or empty, an integer seconds is converted as that
    many thousand milliseconds.  So a value of 0 does not stand for the
    epoch: it is passed over. *)
Theorem dict_keys_in_order (u : unicode) (LOCAL_TZ : Z -> Z) (d : record) :
  (truthy (py_get "value" d) = true ->
   (forall d', py_get "value" d <> VDict d') ->
   epoch_ms_to_utc u (VDict d) = epoch_ms_to_utc u (py_get "value" d)
   /\ utc_ms_to_local_iso u LOCAL_TZ (VDict d)
      = utc_ms_to_local_iso u LOCAL_TZ (py_get "value" d))
  /\ (truthy (py_get "value" d) = false ->
      truthy (py_get "milliseconds" d) = true ->
      (forall d', py_get "milliseconds" d <> VDict d') ->
      epoch_ms_to_utc u (VDict d) = epoch_ms_to_utc u (py_get "milliseconds" d)
      /\ utc_ms_to_local_iso u LOCAL_TZ (VDict d)
         = utc_ms_to_local_iso u LOCAL_TZ (py_get "milliseconds" d))
  /\ (forall s : Z,
        truthy (py_get "value" d) = false ->
        truthy (py_get "milliseconds" d) = false ->
        dict_get String.eqb "seconds" d = Some (VInt s) ->
        epoch_ms_to_utc u (VDict d) = epoch_ms_to_utc u (VInt (s * 1000))
        /\ utc_ms_to_local_iso u LOCAL_TZ (VDict d)
           = utc_ms_to_local_iso u LOCAL_TZ (VInt (s * 1000))).
Proof.
  unfold epoch_ms_to_utc, utc_ms_to_local_iso.
  split; [|split].
  - intros Ht Hd.
    rewrite ts_to_ms_dict, (ts_to_ms_scalar u _ Hd).
    unfold ts_of_dict. rewrite Ht.
    destruct (py_get "value" d); split; reflexivity.
  - intros Hv Ht Hd.
    rewrite ts_to_ms_dict, (ts_to_ms_scalar u _ Hd).
    unfold ts_of_dict. rewrite Hv, Ht.
    destruct (py_get "milliseconds" d); split; reflexivity.
  - intros s Hv Hm Hs.
    rewrite ts_to_ms_dict.
    unfold ts_of_dict, py_get_default. rewrite Hv, Hm, Hs.
    split; reflexivity.
Qed.

Lemma dict_keys_in_order_witness :
  epoch_ms_to_utc sample_unicode
    (VDict [("value", VInt 0); ("milliseconds", VStr "1700000000000")])
  = epoch_ms_to_utc sample_unicode (VStr "1700000000000")
  /\ epoch_ms_to_utc sample_unicode (VDict [("seconds", VInt 1700000000)])
     = epoch_ms_to_utc sample_unicode (VInt (1700000000 * 1000)).
Proof.
  destruct (dict_keys_in_order sample_unicode (fun _ => 21600)
              [("value", VInt 0); ("milliseconds", VStr "1700000000000")])
    as [_ [H2 _]].
  destruct (dict_keys_in_order sample_unicode (fun _ => 21600)
              [("seconds", VInt 1700000000)]) as [_ [_ H3]].
  split.
  - apply H2; [reflexivity | reflexivity | intros d' H; discriminate H].
  - apply (H3 1700000000); reflexivity.
Defined.

(** X21.  The converters can raise.  A dict without a truthy value or
    milliseconds whose seconds entry is [None] or a dict makes both
    converters raise [TypeError]: the product [seconds * 1000] is formed
    before any check of its type. *)
Theorem dict_seconds_none_raises (u : unicode) (LOCAL_TZ : Z -> Z)
    (d : record) (s : pyval) :
  truthy (py_get "value" d) = false ->
  truthy (py_get "milliseconds" d) = false ->
  dict_get String.eqb "seconds" d = Some s ->
  s = VNone \/ (exists d', s = VDict d') ->
  epoch_ms_to_utc u (VDict d) = Raise TypeError
  /\ utc_ms_to_local_iso u LOCAL_TZ (VDict d) = Raise TypeError.
Proof.
  intros Hv Hm Hs Hty.
  unfold epoch_ms_to_utc, utc_ms_to_local_iso.
  rewrite ts_to_ms_dict.
  unfold ts_of_dict, py_get_default. rewrite Hv, Hm, Hs.
  destruct Hty as [-> | [d' ->]]; split; reflexivity.
Qed.

Lemma dict_seconds_none_raises_witness :
  epoch_ms_to_utc sample_unicode (VDict [("seconds", VNone)]) = Raise TypeError
  /\ utc_ms_to_local_iso sample_unicode (fun _ => 21600)
       (VDict [("seconds", VNone)])
     = Raise TypeError.
Proof.
  apply (dict_seconds_none_raises sample_unicode (fun _ => 21600)
           [("seconds", VNone)] VNone);
    try reflexivity.
  left. reflexivity.
Defined.

(** *** The normaliser and the cache *)

(** A key free of the prefix is copied as it is. *)
Lemma str_replace_no_occurrence (old new s : string) :
  occurs old s = false -> str_replace_from old new 0 s = s.
Proof.
  induction s as [|c s IH]; [reflexivity|].
  intros H. cbn [occurs] in H. apply orb_false_iff in H. destruct H as [Hp Ho].
  cbn [str_replace_from]. rewrite Hp, (IH Ho). reflexivity.
Qed.

(** X22.  The event type is the notification key without its prefix.  In a
    notification whose first key starting with "nsp-fault:" is that prefix
    followed by [rest], the loop takes that entry and, provided [rest] does
    not contain the prefix again, gives [rest] as the event type; keys
    before it that do not start with the prefix are passed over, and
    entries after it are not looked at. *)
Theorem event_type_strips_prefix (before after : record) (rest : string)
    (alarm : pyval) :
  Forall (fun kv => String.prefix "nsp-fault:" (fst kv) = false) before ->
  occurs "nsp-fault:" rest = false ->
  find_fault (before ++ (("nsp-fault:" ++ rest)%string, alarm) :: after)
  = Some (rest, alarm).
Proof.
  intros Hb Ho. induction before as [|[k v] before IH]; simpl.
  - unfold str_replace. simpl.
    rewrite (str_replace_no_occurrence _ _ _ Ho).
    destruct rest; reflexivity.
  - inversion Hb as [|? ? Hk Hrest]; subst. simpl in Hk. rewrite Hk.
    apply IH. exact Hrest.
Qed.

Lemma event_type_strips_prefix_witness :
  find_fault ([("eventTime", VStr "t")]
              ++ (("nsp-fault:" ++ "alarm-change")%string, VDict [])
                 :: [("nsp-fault:alarm-create", VNone)])
  = Some ("alarm-change", VDict []).
Proof.
  apply event_type_strips_prefix.
  - apply List.Forall_cons; [reflexivity | apply List.Forall_nil].
  - reflexivity.
Defined.

(** X23.  The normaliser itself only reads the cache.  The memory it leaves
    is the one it found, or that one with the two lists its reader calls
    have allocated, or what [should_drop_alarm] made of the latter when it
    was handed the two lists: whatever has changed in a cache mapping, in an
    alarm dict or in a list that existed is the doing of
    [should_drop_alarm], whether the normaliser returns or raises.  The two
    lists hold the alarm dicts of the two categories, the cache's own.  So
    with a filter that only reads, the normaliser leaves both mappings,
    every alarm dict and every list that existed as they were. *)
Theorem normalize_alarm_only_reads
    (u : unicode) (LOCAL_TZ : Z -> Z)
    (map_severity : pyval -> pyval -> result pyval)
    (parse_affected_object : pyval -> result pyval)
    (should_drop_alarm : record -> loc -> loc -> M memory bool)
    (event : pyval) (m : memory) :
  let m' := snd (normalize_alarm u LOCAL_TZ map_severity parse_affected_object
                   should_drop_alarm event m) in
  let power := next_list m in
  let los := S (next_list m) in
  let m2 := snd (get_los_alarms (snd (get_power_issues m))) in
  (alarm_cache m2 = alarm_cache m
   /\ dict_at m2 = dict_at m
   /\ next_list m2 = S (S (next_list m))
   /\ (forall l, (l < next_list m)%nat -> list_at m2 l = list_at m l)
   /\ list_at m2 power = dict_values (active_power_issues (alarm_cache m))
   /\ list_at m2 los = dict_values (active_los_alarms (alarm_cache m)))
  /\ (m' = m \/ m' = m2
      \/ exists kwargs, m' = snd (should_drop_alarm kwargs power los m2))
  /\ ((forall kwargs p l, only_reads (should_drop_alarm kwargs p l)) ->
      alarm_cache m' = alarm_cache m
      /\ dict_at m' = dict_at m
      /\ (forall l, (l < next_list m)%nat -> list_at m' l = list_at m l)).
Proof.
  cbv zeta.
  assert (H2 : let m2 := snd (get_los_alarms (snd (get_power_issues m))) in
               alarm_cache m2 = alarm_cache m
               /\ dict_at m2 = dict_at m
               /\ next_list m2 = S (S (next_list m))
               /\ (forall l, (l < next_list m)%nat -> list_at m2 l = list_at m l)
               /\ list_at m2 (next_list m)
                  = dict_values (active_power_issues (alarm_cache m))
               /\ list_at m2 (S (next_list m))
                  = dict_values (active_los_alarms (alarm_cache m))).
  { unfold get_power_issues, get_los_alarms, new_list, bind, gets. simpl.
    repeat split.
    + intros l Hl. rewrite !fun_upd_below by lia. reflexivity.
    + rewrite fun_upd_below by lia. apply fun_upd_same.
    + apply fun_upd_same. }
  assert (Hm : let m' := snd (normalize_alarm u LOCAL_TZ map_severity
                                parse_affected_object should_drop_alarm
                                event m) in
               let m2 := snd (get_los_alarms (snd (get_power_issues m))) in
               m' = m \/ m' = m2
               \/ exists kwargs,
                    m' = snd (should_drop_alarm kwargs (next_list m)
                                (S (next_list m)) m2)).
  { cbv zeta. unfold normalize_alarm, bind, lift, ret, gets.
    destruct (attr_get "data" (VDict []) event) as [data|];
      [|left; reflexivity].
    destruct (attr_get "ietf-restconf:notification" (VDict []) data)
      as [notif|]; [|left; reflexivity].
    destruct (attr_items notif) as [items|]; [|left; reflexivity].
    destruct (find_fault items) as [[event_type alarm]|]; [|left; reflexivity].
    destruct alarm as [| | | | |alarm]; try (left; reflexivity).
    destruct (negb (truthy (VDict alarm))); [left; reflexivity|].
    destruct (map_severity _ _) as [severity|]; [|left; reflexivity].
    unfold get_power_issues, get_los_alarms, new_list, bind, gets. simpl.
    destruct (epoch_ms_to_utc _ _) as [first_detected|]; simpl;
      [|right; left; reflexivity].
    right. right.
    match goal with
    | |- context [should_drop_alarm ?kw ?p ?l ?mm] =>
        exists kw; destruct (should_drop_alarm kw p l mm) as [[[]|e] m3]
    end; simpl; try reflexivity.
    destruct (parse_affected_object _); simpl; [|reflexivity].
    destruct (utc_ms_to_local_iso _ _ (py_get "firstTimeDetected" alarm));
      simpl; [|reflexivity].
    destruct (utc_ms_to_local_iso _ _ (py_get "lastTimeDetected" alarm));
      reflexivity. }
  cbv zeta in H2, Hm.
  split; [exact H2|]. split; [exact Hm|].
  intros Hread. destruct H2 as [Hc [Hd [Hn [Hl _]]]].
  destruct Hm as [-> | [-> | [kw ->]]].
  - repeat split.
  - repeat split; assumption.
  - destruct (Hread kw (next_list m) (S (next_list m))
                (snd (get_los_alarms (snd (get_power_issues m)))))
      as [Hc' [Hd' Hl']].
    rewrite Hc', Hd', Hc, Hd. repeat split.
    intros l Hlt. rewrite Hl' by (rewrite Hn; lia). apply Hl. exact Hlt.
Qed.

(** A filter that reads the list of active power issues, on the sample
    notification. *)
Lemma normalize_alarm_only_reads_witness :
  let filter := fun (_ : record) (power _ : loc) =>
                  let! active := gets (fun m => list_at m power) in
                  ret match active with [] => false | _ => true end in
  let m' := snd (normalize_alarm sample_unicode (fun _ => 21600)
                   (fun raw _ => Ok raw) (fun _ => Ok VNone) filter
                   sample_envelope sample_loaded) in
  (forall kwargs p l, only_reads (filter kwargs p l))
  /\ alarm_cache m' = alarm_cache sample_loaded
  /\ dict_at m' = dict_at sample_loaded.
Proof.
  cbv zeta.
  assert (H : forall (kwargs : record) (p l : loc),
            only_reads (let! active := gets (fun m => list_at m p) in
                        ret match active with [] => false | _ => true end)).
  { intros kwargs p l m0. repeat split. }
  split; [exact H|].
  destruct (normalize_alarm_only_reads sample_unicode (fun _ => 21600)
              (fun raw _ => Ok raw) (fun _ => Ok VNone)
              (fun (_ : record) (power _ : loc) =>
                 let! active := gets (fun m => list_at m power) in
                 ret match active with [] => false | _ => true end)
              sample_envelope sample_loaded) as [_ [_ Hr]].
  destruct (Hr H) as [Hc [Hd _]]. split; [exact Hc | exact Hd].
Defined.


(* ===================================================================== *)
(** ** The normaliser on a sample notification *)
(* ===================================================================== *)

Example event_type_of_key :
  str_replace "nsp-fault:" "" "nsp-fault:alarm-create" = "alarm-create".
Proof. reflexivity. Qed.

(** With collaborators that keep the severity, parse nothing and drop
    nothing, the sample notification becomes the record of A1; the two
    reader calls have each left a list behind. *)
Example normalize_sample_envelope :
  let r := normalize_alarm sample_unicode (fun _ => 21600)
             (fun raw _ => Ok raw) (fun _ => Ok VNone) (fun _ _ _ => ret false)
             sample_envelope sample_loaded in
  fst r
  = Ok (VDict
          [("event_type", VStr "alarm-create");
           ("event_time", VStr "2023-11-14T22:13:21Z");
           ("alarm_id", VStr "A1");
           ("alarm_name", VStr "Power Issue");
           ("specific_problem", VNone);
           ("probable_cause", VNone);
           ("ne_name", VStr "NE1");
           ("ne_id", VNone);
           ("source", VNone);
           ("severity_raw", VStr "major");
           ("severity", VStr "major");
           ("affected_object", VNone);
           ("affected_object_name", VNone);
           ("object_type", VStr "PHYSICALCONNECTION");
           ("object_details", VNone);
           ("first_detected", VStr "2023-11-15T04:13:20+06:00");
           ("last_detected", VStr "2023-11-15T04:13:20.123000+06:00");
           ("acknowledged", VBool false);
           ("service_affecting", VNone);
           ("implicitly_cleared", VBool false)])
  /\ next_list (snd r) = 2%nat
  /\ alarm_cache (snd r) = alarm_cache sample_loaded.
Proof. vm_compute. repeat split. Qed.

(** A filter that drops the alarm when a power issue is active gives
    [None]. *)
Example normalize_dropped_by_predicate :
  fst (normalize_alarm sample_unicode (fun _ => 21600)
         (fun raw _ => Ok raw) (fun _ => Ok VNone)
         (fun _ power _ =>
            let! active := gets (fun m => list_at m power) in
            ret match active with [] => false | _ => true end)
         sample_envelope sample_loaded)
  = Ok VNone.
Proof. vm_compute. reflexivity. Qed.

(** A filter that writes to what it is handed writes to the cache's alarm
    dicts: one that empties the first active power issue leaves A1 cached
    with no fields, although the normaliser itself, and the cache methods it
    calls, only read. *)
Example normalize_with_writing_filter :
  let scrub := fun (_ : record) (power _ : loc) (m : memory) =>
                 match list_at m power with
                 | a :: _ => (Ok false, mutate_dict a [] m)
                 | [] => (Ok false, m)
                 end in
  let r := normalize_alarm sample_unicode (fun _ => 21600)
             (fun raw _ => Ok raw) (fun _ => Ok VNone) scrub
             sample_envelope sample_loaded in
  snapshot_power sample_loaded = [sample_power_issue]
  /\ snapshot_power (snd r) = [[]].
Proof. vm_compute. split; reflexivity. Qed.

(** A collaborator that raises makes the normaliser raise: the severity
    mapper before the cache is read, the filter after. *)
Example normalize_with_raising_collaborators :
  normalize_alarm sample_unicode (fun _ => 21600)
    (fun _ _ => Raise ValueError) (fun _ => Ok VNone) (fun _ _ _ => ret false)
    sample_envelope sample_loaded
  = (Raise ValueError, sample_loaded)
  /\ fst (normalize_alarm sample_unicode (fun _ => 21600)
            (fun raw _ => Ok raw) (fun _ => Ok VNone)
            (fun _ _ _ => raise KeyError)
            sample_envelope sample_loaded)
     = Raise KeyError.
Proof. vm_compute. split; reflexivity. Qed.

(* ===================================================================== *)
(** ** Properties of the token manager *)
(* ===================================================================== *)

Example split_token :
  TokenManager.split "."%char "head.payload.sig" = ["head"; "payload"; "sig"]
  /\ TokenManager.split "."%char "opaque" = ["opaque"]
  /\ TokenManager.split "."%char "a." = ["a"; ""].
Proof. repeat split. Qed.

Ltac unfold_tm :=
  unfold TokenManager.call, TokenManager.get_access_token,
    TokenManager.ensure_token, TokenManager.revoke,
    TokenManager._refresh_token, TokenManager._get_token,
    TokenManager._save_tokens, TokenManager._load_tokens,
    TokenManager._now, TokenManager.get_attr, TokenManager.json_of,
    TokenManager.post, TokenManager.bind, TokenManager.ret,
    TokenManager.throw in *.

Ltac tm_cases :=
  repeat (simpl in *;
          match goal with
          | |- context [match ?x with _ => _ end] =>
              lazymatch x with
              | context [match _ with _ => _ end] => fail
              | _ => destruct x eqn:?
              end
          end).

(** X24.  The token file never holds anything but a dict with an
    access_token.  If it is absent or such a dict, it still is after any
    method, whatever the server answers and whatever the token decodes to:
    a body without access_token is refused before the file is touched. *)
Theorem token_file_stays_valid (refresh_before : Z)
    (urlsafe_b64decode : string -> option string)
    (json_loads : string -> option pyval)
    (f : TokenManager.method) (s : TokenManager.state) :
  TokenManager.file_ok s ->
  TokenManager.file_ok
    (TokenManager.call refresh_before urlsafe_b64decode json_loads f s).
Proof.
  intros H. destruct s as [file now rs log].
  unfold TokenManager.file_ok in *. simpl in H.
  destruct f; unfold_tm; tm_cases; simpl; subst;
    try exact H; try exact I; eauto; try discriminate.
  all: destruct H as [? H]; discriminate H.
Qed.

Lemma token_file_stays_valid_witness :
  TokenManager.file_ok (sample_tm_state 1900 [TokenManager.Reply 200 (Some (VDict []))])
  /\ TokenManager.file_ok
       (TokenManager.call 300 sample_b64decode sample_json_loads
          TokenManager.Ensure_token
          (sample_tm_state 1900 [TokenManager.Reply 200 (Some (VDict []))])).
Proof.
  assert (H : TokenManager.file_ok
                (sample_tm_state 1900 [TokenManager.Reply 200 (Some (VDict []))])).
  { exists (VStr "h.p.s"). reflexivity. }
  split; [exact H|].
  exact (token_file_stays_valid 300 sample_b64decode sample_json_loads
           TokenManager.Ensure_token _ H).
Defined.

(** X25.  A token that is not about to expire costs nothing: when the file
    holds a dict whose access_token decodes to an integer expiry at least
    [refresh_before] seconds ahead of the clock, [ensure_token] sends no
    request and leaves the file as it is. *)
Theorem fresh_token_needs_no_request (refresh_before : Z)
    (urlsafe_b64decode : string -> option string)
    (json_loads : string -> option pyval)
    (s : TokenManager.state) (d : record) (exp : Z) :
  TokenManager.token_file s = Some (VDict d) ->
  truthy (VDict d) = true ->
  as_number (TokenManager._decode_exp urlsafe_b64decode json_loads
               (py_get "access_token" d)) = Some exp ->
  refresh_before <= exp - TokenManager.clock s ->
  TokenManager.ensure_token refresh_before urlsafe_b64decode json_loads s
  = (TokenManager.Ret tt, s).
Proof.
  intros Hf Ht He Hfresh. destruct s as [file now rs log]. simpl in *.
  subst file. unfold_tm. simpl. rewrite Ht. simpl. rewrite He.
  destruct (Z.ltb_spec (exp - now) refresh_before); [lia | reflexivity].
Qed.

Lemma fresh_token_needs_no_request_witness :
  TokenManager.ensure_token 300 sample_b64decode sample_json_loads
    (sample_tm_state 1700 [])
  = (TokenManager.Ret tt, sample_tm_state 1700 []).
Proof.
  apply (fresh_token_needs_no_request 300 sample_b64decode sample_json_loads
           (sample_tm_state 1700 [])
           [("access_token", VStr "h.p.s"); ("refresh_token", VStr "r1")] 2000).
  - reflexivity.
  - reflexivity.
  - reflexivity.
  - simpl. lia.
Defined.

(** X26.  [ensure_token] sends at most two requests: none, the credentials
    alone, a refresh alone, or a refresh followed by the credentials.  A
    refresh always carries the refresh_token of the file, and the
    credentials are never posted before it. *)
Theorem ensure_token_requests (refresh_before : Z)
    (urlsafe_b64decode : string -> option string)
    (json_loads : string -> option pyval) (s : TokenManager.state) :
  exists new,
    TokenManager.sent
      (snd (TokenManager.ensure_token refresh_before urlsafe_b64decode
              json_loads s))
    = TokenManager.sent s ++ new
    /\ (new = []
        \/ new = [TokenManager.PostCredentials]
        \/ exists d,
             TokenManager.token_file s = Some (VDict d)
             /\ (new = [TokenManager.PostRefresh (py_get "refresh_token" d)]
                 \/ new = [TokenManager.PostRefresh (py_get "refresh_token" d);
                           TokenManager.PostCredentials])).
Proof.
  destruct s as [file now rs log]. unfold_tm. tm_cases; simpl; subst.
  all: rewrite <- ?app_assoc; simpl.
  all: try (exists []; rewrite app_nil_r; split; [reflexivity | tauto]).
  all: try (eexists; split; [reflexivity|]; tauto).
  all: eexists; split; [reflexivity|]; right; right; eexists;
    split; [reflexivity | tauto].
Qed.

(** The token about to expire, the refresh refused with a 401 and the
    credentials accepted: two requests, and the file holds the new
    tokens. *)
Example stale_token_refresh_refused :
  let r := TokenManager.ensure_token 300 sample_b64decode sample_json_loads
             (sample_tm_state 1900
                [TokenManager.Reply 401 None;
                 TokenManager.Reply 200 (Some sample_new_tokens)]) in
  fst r = TokenManager.Ret tt
  /\ TokenManager.token_file (snd r) = Some sample_new_tokens
  /\ TokenManager.sent (snd r)
     = [TokenManager.PostRefresh (VStr "r1"); TokenManager.PostCredentials].
Proof. vm_compute. repeat split. Qed.





(* ===================================================================== *)
(** ** Properties of the cleanup *)
(* ===================================================================== *)

(** Case analysis along a run of [cleanup]: the next print, the
    subscription id, the outcome of the deletion and of the revocation. *)
Ltac cleanup_step :=
  match goal with
  | |- context [match ?x with [] => _ | _ :: _ => _ end] =>
      is_var x; destruct x as [|[] ?]
  | |- context [if truthy ?v then _ else _] => destruct (truthy v) eqn:?
  | |- context [?f ?a ?b ?c] =>
      is_var f; destruct (f a b c) as [[[]|?] ?] eqn:?
  | |- context [Main.is_Exception ?e] => destruct (Main.is_Exception e) eqn:?
  | |- context [TokenManager.revoke ?t] =>
      destruct (TokenManager.revoke t) as [[[]|?] ?] eqn:?
  | |- context [if ?b then _ else _] => is_var b; destruct b
  end; simpl in *; try discriminate.

Ltac cleanup_cases := repeat cleanup_step.

(** Whatever happens, the flag is set when [cleanup] is left. *)
Lemma cleanup_sets_done
    (delete_subscription :
       bool -> pyval -> TokenManager.state
       -> Main.outcome unit * TokenManager.state)
    (s : Main.state) :
  Main.cleanup_done (snd (Main.cleanup delete_subscription s)) = true.
Proof.
  destruct s as [done stop sid tm toks out acts].
  unfold Main.cleanup, Main.bind, Main.set_cleanup_done,
    Main.stop_event_set, Main.try_except, Main.call_delete_subscription,
    Main.token_mgr_revoke, Main.skip, Main.print. simpl.
  destruct done; [reflexivity|]. simpl.
  cleanup_cases; reflexivity.
Qed.

(** X29.  [cleanup] runs once.  It leaves the [cleanup_done] flag set in
    every case, so a second call does nothing at all.  When its first
    [print] fails it raises with the flag set and nothing released: the
    stop event is not set, the deletion is not asked for and the token is
    not revoked, now or on a later call.  When its prints succeed the first
    call sets the stop event and asks once for the deletion of the
    subscription if there is one; if [delete_subscription] raises nothing
    that escapes [except Exception], [cleanup] returns, having revoked the
    token, in the state [delete_subscription] left the token manager in,
    whenever there is a token manager, also when the deletion or the
    revocation raised; an exception that escapes is passed on and the token
    is not revoked. *)
Theorem cleanup_runs_once
    (delete_subscription :
       bool -> pyval -> TokenManager.state
       -> Main.outcome unit * TokenManager.state)
    (s : Main.state) :
  let cleanup := Main.cleanup delete_subscription in
  let deleting := truthy (Main.subscription_id s) in
  let d := delete_subscription (Main.token_mgr s) (Main.subscription_id s)
             (Main.tokens s) in
  let tokens1 := if deleting then snd d else Main.tokens s in
  let tokens2 := if Main.token_mgr s
                 then snd (TokenManager.revoke tokens1) else tokens1 in
  (Main.cleanup_done (snd (cleanup s)) = true
   /\ cleanup (snd (cleanup s)) = (Main.Ret tt, snd (cleanup s))
   /\ (Main.cleanup_done s = true -> cleanup s = (Main.Ret tt, s)))
  /\ (Main.cleanup_done s = false ->
      (exists rest, Main.stdout s = true :: rest) ->
      fst (cleanup s) = Main.Exc Main.PrintError
      /\ Main.stop_event (snd (cleanup s)) = Main.stop_event s
      /\ Main.actions (snd (cleanup s)) = Main.actions s
      /\ Main.tokens (snd (cleanup s)) = Main.tokens s)
  /\ (Main.cleanup_done s = false ->
      forallb negb (Main.stdout s) = true ->
      Main.stop_event (snd (cleanup s)) = true
      /\ Main.actions (snd (cleanup s))
         = Main.actions s
           ++ (if deleting
               then [Main.DeleteSubscription (Main.subscription_id s)]
               else [])
      /\ ((forall e, deleting = true -> fst d = Main.Exc e ->
                     Main.is_Exception e = true) ->
          fst (cleanup s) = Main.Ret tt
          /\ Main.tokens (snd (cleanup s)) = tokens2)
      /\ (forall e, deleting = true -> fst d = Main.Exc e ->
                    Main.is_Exception e = false ->
          fst (cleanup s) = Main.Exc e
          /\ Main.tokens (snd (cleanup s)) = tokens1)).
Proof.
  cbv zeta. split; [|split].
  - pose proof (cleanup_sets_done delete_subscription s) as Hdone.
    split; [exact Hdone|]. split.
    + unfold Main.cleanup at 1. rewrite Hdone. reflexivity.
    + intros H. unfold Main.cleanup. rewrite H. reflexivity.
  - destruct s as [done stop sid tm toks out acts]. simpl.
    intros -> [rest ->]. repeat split.
  - destruct s as [done stop sid tm toks out acts]. simpl.
    intros -> Hout.
    unfold Main.cleanup, Main.bind, Main.set_cleanup_done,
      Main.stop_event_set, Main.try_except, Main.call_delete_subscription,
      Main.token_mgr_revoke, Main.skip, Main.print. simpl.
    cleanup_cases.
    all: rewrite ?app_nil_r.
    all: repeat match goal with
                | |- _ /\ _ => split
                | |- _ = _ => reflexivity
                | |- (forall e, _ -> _ -> Main.is_Exception e = true) -> _ =>
                    let H := fresh "Hcaught" in
                    intros H;
                    try (specialize (H _ eq_refl eq_refl); congruence)
                | |- forall e, _ -> _ -> Main.is_Exception e = false -> _ =>
                    let Hd := fresh "Hd" in
                    let He := fresh "He" in
                    intros ? Hd He ?; try discriminate Hd;
                    try discriminate He; try (injection He as <-);
                    try congruence
                end.
    all: congruence.
Qed.

(** The subscription service is down, the auth server refreshes the token
    for [delete_subscription] and then answers 503 to the revocation:
    [cleanup] returns all the same, the deletion was asked for once, the
    token that was revoked is the refreshed one and the token file is
    gone. *)
Lemma cleanup_runs_once_witness :
  let s := sample_main [TokenManager.Reply 200 (Some sample_new_tokens);
                        TokenManager.Reply 503 None] in
  let r := Main.cleanup sample_delete_subscription s in
  fst r = Main.Ret tt
  /\ Main.actions (snd r) = [] ++ [Main.DeleteSubscription (VStr "sub-1")]
  /\ TokenManager.token_file (Main.tokens (snd r)) = None
  /\ TokenManager.sent (Main.tokens (snd r))
     = [TokenManager.PostRefresh (VStr "r1");
        TokenManager.PostRevoke (VStr "h2.p.s")].
Proof.
  cbv zeta.
  destruct (cleanup_runs_once sample_delete_subscription
              (sample_main [TokenManager.Reply 200 (Some sample_new_tokens);
                            TokenManager.Reply 503 None]))
    as [_ [_ H]].
  destruct (H eq_refl eq_refl) as [_ [Ha [Hr _]]].
  destruct Hr as [Hret Htok].
  { intros e _ He. vm_compute in He. injection He as <-. reflexivity. }
  split; [exact Hret|]. split; [exact Ha|].
  rewrite Htok. split; reflexivity.
Defined.

(** A first print that fails: [cleanup] raises, and the call that follows
    returns at once, with the subscription and the token still there. *)
Example cleanup_with_closed_stdout :
  let s := Main.mkState false false (VStr "sub-1") true
             (sample_tm_state 1900 []) [true] [] in
  let r := Main.cleanup sample_delete_subscription s in
  fst r = Main.Exc Main.PrintError
  /\ Main.cleanup sample_delete_subscription (snd r) = (Main.Ret tt, snd r)
  /\ Main.stop_event (snd r) = false
  /\ Main.actions (snd r) = []
  /\ TokenManager.token_file (Main.tokens (snd r)) = Some sample_tokens.
Proof. vm_compute. repeat split. Qed.
